(** * Span tag validation of the APM test agent

    A shallow embedding of [ddapm_test_agent/span_validation]:
    - [tag_checks.py]: [unpack], [TagCheck], [SpanTagChecks],
      [SpanTagChecksLoader];
    - [span_tag_validation_check.py]: [SpanTagValidationCheck];
    - [span_tag_validator.py]: [SpanTagValidator].

    Python dictionaries that are only read and updated by key (the working
    tag set [_tags], the dictionary filled by [unpack], the integration
    index) are finite maps; a span, whose [items()] order decides which of
    two equal leaf keys is written last, is an ordered list of fields. *)

From Stdlib Require Import ZArith QArith.
From stdpp Require Import gmap strings list fin_maps.

Close Scope Q_scope.
Open Scope string_scope.

(** ** Python values *)

(** Values found in a decoded span or a specification file: the JSON
    scalars and nested objects.  A finite float is represented by the
    rational it denotes; JSON arrays do not occur as tag values. *)
Inductive leaf : Type :=
| VNone
| VBool (b : bool)
| VInt (z : Z)
| VFloat (q : Q)
| VStr (s : string).

Inductive pyval : Type :=
| Leaf (l : leaf)
| Dict (d : pydict)
with pydict : Type :=
| DNil
| DCons (k : string) (v : pyval) (rest : pydict).

(** A span is a dictionary; [DCons] lists its items in iteration order. *)
Abbreviation Span := pydict.

Fixpoint pd_items (d : pydict) : list (string * pyval) :=
  match d with
  | DNil => []
  | DCons k v rest => (k, v) :: pd_items rest
  end.

Fixpoint pd_of_list (l : list (string * pyval)) : pydict :=
  match l with
  | [] => DNil
  | (k, v) :: rest => DCons k v (pd_of_list rest)
  end.

(** [d.get(key)]: the keys of a Python dictionary are distinct, so the
    first item with the key is the item. *)
Fixpoint pd_get (key : string) (d : pydict) : option pyval :=
  match d with
  | DNil => None
  | DCons k v rest => if decide (k = key) then Some v else pd_get key rest
  end.

(** Truth value of an object in a condition. *)
Definition leaf_truthy (l : leaf) : bool :=
  match l with
  | VNone => false
  | VBool b => b
  | VInt z => negb (z =? 0)%Z
  | VFloat q => negb (Qeq_bool q 0%Q)
  | VStr s => negb (String.eqb s "")
  end.

Definition truthy (v : pyval) : bool :=
  match v with
  | Leaf l => leaf_truthy l
  | Dict DNil => false
  | Dict (DCons _ _ _) => true
  end.

(** [==] on scalars: booleans, integers and floats compare by numeric
    value, strings by content, [None] only equals [None]. *)
Definition leaf_num (l : leaf) : option Q :=
  match l with
  | VBool b => Some (if b then 1%Q else 0%Q)
  | VInt z => Some (inject_Z z)
  | VFloat q => Some q
  | VNone | VStr _ => None
  end.

Definition leaf_eq (a b : leaf) : bool :=
  match a, b with
  | VNone, VNone => true
  | VStr s, VStr t => String.eqb s t
  | _, _ =>
      match leaf_num a, leaf_num b with
      | Some x, Some y => Qeq_bool x y
      | _, _ => false
      end
  end.

(** [a == e] for a flattened tag value [a] (never a dictionary) and a value
    [e] read from a specification. *)
Definition py_eq (a : leaf) (e : pyval) : bool :=
  match e with
  | Leaf b => leaf_eq a b
  | Dict _ => false
  end.

(** [type(v)] and the table [string_to_type_map]. *)
Inductive pytype : Type := TNoneType | TBool | TInt | TFloat | TStr.

Global Instance pytype_eq_dec : EqDecision pytype.
Proof. solve_decision. Defined.

Definition type_of (l : leaf) : pytype :=
  match l with
  | VNone => TNoneType
  | VBool _ => TBool
  | VInt _ => TInt
  | VFloat _ => TFloat
  | VStr _ => TStr
  end.

Definition string_to_type_map : gmap string pytype :=
  <["string" := TStr]> (<["integer" := TInt]> (<["bool" := TBool]>
  (<["float" := TFloat]> (<["str" := TStr]> (<["int" := TInt]> ∅))))).

(** ** Flattening *)

Definition IGNORED_TAGS : gset string :=
  list_to_set ["span_id"; "trace_id"; "duration"; "start"; "resource";
               "parent_id"; "env"; "version"; "service"; "name"].

(** [unpack(data, initial)] of [tag_checks.py]. *)
Fixpoint unpack (data : pydict) (initial : gmap string leaf) : gmap string leaf :=
  match data with
  | DNil => initial
  | DCons k v rest =>
      match v with
      | Dict d => unpack rest (unpack d initial)
      | Leaf l => unpack rest (<[k := l]> initial)
      end
  end.

(** [SpanTagValidationCheck.extract_tags(span, extracted_tags)]. *)
Fixpoint extract_tags (span : pydict) (extracted_tags : gmap string leaf)
  : gmap string leaf :=
  match span with
  | DNil => extracted_tags
  | DCons k v rest =>
      match v with
      | Dict d => extract_tags rest (extract_tags d extracted_tags)
      | Leaf l =>
          if decide (k ∈ IGNORED_TAGS) then extract_tags rest extracted_tags
          else extract_tags rest (<[k := l]> extracted_tags)
      end
  end.

(** The leaves of a span in the order the traversal meets them: the
    reading of the flattening contract that the functions above are
    compared with. *)
Fixpoint leaves (d : pydict) : list (string * leaf) :=
  match d with
  | DNil => []
  | DCons k v rest =>
      match v with
      | Dict d' => leaves d' ++ leaves rest
      | Leaf l => (k, l) :: leaves rest
      end
  end.

(** The value of the last leaf named [key], if there is one. *)
Fixpoint last_leaf (key : string) (ls : list (string * leaf)) : option leaf :=
  match ls with
  | [] => None
  | (k, l) :: rest =>
      match last_leaf key rest with
      | Some l' => Some l'
      | None => if decide (k = key) then Some l else None
      end
  end.

(** ** Exceptions, failure messages and the computation monad *)

(** The formatted failure messages, kept as the values they interpolate. *)
Inductive message : Type :=
| REQUIRED_TAG_ERROR (tag : string) (span_name : pyval) (check_name : string)
| MATCHING_TAG_ERROR (tag : string) (expected : pyval) (span_name : pyval)
    (check_name : string)
| TAG_VALUE_TYPE_ERROR (tag : string) (val_type : string) (actual : pytype)
| UNVALIDATED_TAGS_ERROR (span_name : pyval) (check_name : string)
    (keys : gset string)
| TAG_MISSING_ASSERTION (span_name : pyval) (rules_name : string) (tag : string)
    (keys : gset string)
| TAG_MISMATCH_ASSERTION (span_name : pyval) (rules_name : string) (tag : string)
    (actual : leaf) (expected : pyval).

(** Specification files are addressed by the directory they are read from:
    [./specifications/ddtrace/<language>/<file>] and
    [./specifications/integration/<file>]. *)
Inductive path : Type :=
| DdtracePath (language : pyval) (file : string)
| IntegrationPath (file : string).

Inductive exn : Type :=
| KeyError (key : string)
| IntKeyError (key : nat)
| IndexError
| AttributeError (attr : string)
| TypeError
| UnboundLocalError
| FileNotFoundError (p : path)
| AssertionError (m : message).

Inductive result (A : Type) : Type :=
| Done (a : A)
| Raised (e : exn).
Arguments Done {A} a.
Arguments Raised {A} e.

(** A method that updates the state [S] and returns or raises; the state
    reached when an exception is raised is kept. *)
Definition M (S A : Type) : Type := S → result A * S.

Definition ret {S A : Type} (a : A) : M S A := λ s, (Done a, s).

Definition bind {S A B : Type} (m : M S A) (f : A → M S B) : M S B :=
  λ s, match m s with
       | (Done a, s') => f a s'
       | (Raised e, s') => (Raised e, s')
       end.

Definition raise {S A : Type} (e : exn) : M S A := λ s, (Raised e, s).
Definition get {S : Type} : M S S := λ s, (Done s, s).
Definition modify {S : Type} (f : S → S) : M S unit := λ s, (Done tt, f s).

Notation "x <- m ;; k" := (bind m (λ x, k))
  (at level 100, m at next level, right associativity).
Notation "m ;; k" := (bind m (λ _, k))
  (at level 100, right associativity).

Definition when {S : Type} (b : bool) (m : M S unit) : M S unit :=
  if b then m else ret tt.

Fixpoint for_each {S A : Type} (f : A → M S unit) (l : list A) : M S unit :=
  match l with
  | [] => ret tt
  | x :: rest => f x ;; for_each f rest
  end.

(** [d[key]] on a span. *)
Definition getitem {S : Type} (d : pydict) (key : string) : M S pyval :=
  match pd_get key d with
  | Some v => ret v
  | None => raise (KeyError key)
  end.

(** ** [tag_checks.py] and [span_tag_validation_check.py] *)

(** What one [SpanTagValidationCheck] run reads and writes. *)
Record check_state : Type := {
  (** the dictionary bound once to the default [initial={}] of [unpack] *)
  unpack_initial : gmap string leaf;
  (** [self._tags], the working tag set *)
  _tags : gmap string leaf;
  (** the messages given to [fail], oldest first *)
  failures : list message;
}.

(** Modelled from the spec: [Check.fail] of module [checks], which is not
    part of the sources.  A violation is collected rather than thrown: [fail]
    records the message and returns, as the checks of [trace_checks.py] rely
    on when they [return] right after [self.fail(...)]. *)
Definition fail (msg : message) : M check_state unit :=
  modify (λ s, {| unpack_initial := unpack_initial s; _tags := _tags s;
                  failures := failures s ++ [msg] |}).

(** [unpack(span)] with the default argument: the dictionary that is filled
    and returned is the one every such call shares. *)
Definition unpack_default (span : pydict) : M check_state (gmap string leaf) :=
  λ s, let flattened_span := unpack span (unpack_initial s) in
       (Done flattened_span,
        {| unpack_initial := flattened_span; _tags := _tags s;
           failures := failures s |}).

Definition del_tag (tag : string) : M check_state unit :=
  modify (λ s, {| unpack_initial := unpack_initial s;
                  _tags := delete tag (_tags s); failures := failures s |}).

Definition val_type_set (val_type : option string) : bool :=
  match val_type with
  | Some s => negb (String.eqb s "")
  | None => false
  end.

Module TagCheck.

Record t : Type := {
  name : string;
  val_type : option string;
  required : bool;
  value : pyval;
}.

(** [flattened_span[self.name]] *)
Definition flattened_getitem (flattened_span : gmap string leaf) (tag : string)
  : M check_state leaf :=
  match flattened_span !! tag with
  | Some v => ret v
  | None => raise (KeyError tag)
  end.

(** The type comparison shared by the required and the optional branch. *)
Definition check_val_type (self : t) (flattened_span : gmap string leaf)
  (ty : string) : M check_state unit :=
  v <- flattened_getitem flattened_span (name self) ;;
  match string_to_type_map !! ty with
  | None => raise (KeyError ty)
  | Some expected =>
      when (bool_decide (type_of v ≠ expected))
        (fail (TAG_VALUE_TYPE_ERROR (name self) ty (type_of v)))
  end.

Definition check (self : t) (span : pydict) (span_check_name : string)
  : M check_state unit :=
  flattened_span <- unpack_default span ;;
  if required self && truthy (value self) then
    span_name <- getitem span "name" ;;
    when (bool_decide (flattened_span !! name self = None))
      (fail (REQUIRED_TAG_ERROR (name self) span_name span_check_name)) ;;
    v <- flattened_getitem flattened_span (name self) ;;
    when (negb (py_eq v (value self)))
      (fail (MATCHING_TAG_ERROR (name self) (value self) span_name
               span_check_name))
  else if required self then
    span_name <- getitem span "name" ;;
    when (bool_decide (flattened_span !! name self = None))
      (fail (REQUIRED_TAG_ERROR (name self) span_name span_check_name)) ;;
    match val_type self with
    | Some ty =>
        when (val_type_set (Some ty)) (check_val_type self flattened_span ty)
    | None => ret tt
    end
  else
    if bool_decide (flattened_span !! name self = None) then
      _ <- getitem span "name" ;; ret tt
    else
      match val_type self with
      | Some ty =>
          when (val_type_set (Some ty)) (check_val_type self flattened_span ty)
      | None => ret tt
      end ;;
      _ <- getitem span "name" ;; ret tt.

End TagCheck.

(** [l.insert(i, x)] for an index [i >= 0]: past the end it appends. *)
Definition list_insert_at {A : Type} (i : nat) (x : A) (l : list A) : list A :=
  take i l ++ x :: drop i l.

Module SpanTagChecks.

Record t : Type := {
  name : string;
  span_type : option string;
  tag_checks : list TagCheck.t;
}.

(** One iteration of the loop of [check]: the rule is checked, then its
    tag leaves the working set whatever the check found. *)
Definition check_tag (self : t) (span : pydict) (tag_check : TagCheck.t)
  : M check_state unit :=
  TagCheck.check tag_check span (name self) ;;
  s <- get ;;
  when (bool_decide (is_Some (_tags s !! TagCheck.name tag_check)))
    (del_tag (TagCheck.name tag_check)).

(** [check(self, span_validator_check)]; the span of the validation check
    is passed, its [_tags] is the state. *)
Definition check (self : t) (span : pydict) : M check_state unit :=
  _ <- getitem span "name" ;;
  for_each (check_tag self span) (tag_checks self).

End SpanTagChecks.

(** ** Specification files *)

(** A rule object, a specification document and the content of a file. *)
Record tag_spec : Type := {
  ts_required : bool;
  ts_type : option string;
  ts_value : pyval;
}.

Record spec_doc : Type := {
  doc_name : string;
  doc_type : option string;
  doc_tags : list (string * tag_spec);
}.

Inductive file_data : Type :=
| JObject (d : spec_doc)
| JArray (ds : list spec_doc).

Record filesystem : Type := {
  (** the files of [./specifications/integration/] as [iterdir] lists them,
      [None] when the directory does not exist *)
  integration_dir : option (list (string * file_data));
  ddtrace_file : pyval → string → option file_data;
}.

Fixpoint assoc_get {A : Type} (key : string) (l : list (string * A)) : option A :=
  match l with
  | [] => None
  | (k, a) :: rest => if decide (k = key) then Some a else assoc_get key rest
  end.

Definition read_file (fs : filesystem) (p : path) : option file_data :=
  match p with
  | DdtracePath language file => ddtrace_file fs language file
  | IntegrationPath file =>
      match integration_dir fs with
      | Some files => assoc_get file files
      | None => None
      end
  end.

Definition TESTED_SPAN_TYPES : list string := ["http"].

Definition SPAN_TYPES : gset string :=
  list_to_set ["cache"; "cassandra"; "elasticsearch"; "grpc"; "graphql"; "http";
               "mongodb"; "redis"; "sql"; "template"; "test"; "web"; "worker"].

(** [v in TESTED_SPAN_TYPES] and [v in SPAN_TYPES] for a value of a span. *)
Definition in_tested_span_types (v : pyval) : bool :=
  match v with
  | Leaf (VStr s) => bool_decide (s ∈ TESTED_SPAN_TYPES)
  | _ => false
  end.

Definition in_span_types (v : pyval) : bool :=
  match v with
  | Leaf (VStr s) => bool_decide (s ∈ SPAN_TYPES)
  | _ => false
  end.

Module SpanTagChecksLoader.

Record t : Type := {
  (** [{ <INTEGRATION_NAME>: { <SPEC_NAME> : <SPEC_INDEX_IN_FILE> } }] *)
  integration_specs : gmap string (gmap string nat);
}.

(** The loop [for i, span_spec in enumerate(data)], started at [i]. *)
Fixpoint enumerate_specs (i : nat) (data : list spec_doc)
  (integration_specs : gmap string nat) : gmap string nat :=
  match data with
  | [] => integration_specs
  | span_spec :: rest =>
      enumerate_specs (S i) rest (<[doc_name span_spec := i]> integration_specs)
  end.

Definition file_index (data : file_data) : gmap string nat :=
  match data with
  | JArray ds => enumerate_specs 0 ds ∅
  | JObject _ => ∅
  end.

(** [str(spec_file.name)[:-10]] *)
Definition strip_suffix (file_name : string) : string :=
  String.substring 0 (String.length file_name - 10) file_name.

Fixpoint index_files (files : list (string * file_data))
  (acc : gmap string (gmap string nat)) : gmap string (gmap string nat) :=
  match files with
  | [] => acc
  | (file_name, data) :: rest =>
      index_files rest (<[strip_suffix file_name := file_index data]> acc)
  end.

Definition __init__ (fs : filesystem) : result t :=
  match integration_dir fs with
  | None => Raised (FileNotFoundError (IntegrationPath ""))
  | Some files => Done {| integration_specs := index_files files ∅ |}
  end.

Definition make_tag_check (entry : string * tag_spec) : TagCheck.t :=
  {| TagCheck.name := entry.1;
     TagCheck.required := ts_required entry.2;
     TagCheck.val_type := ts_type entry.2;
     TagCheck.value := ts_value entry.2 |}.

(** [SpanTagChecks(name=..., tags=..., span_type=...)] on a document. *)
Definition make_checks (data : spec_doc) : SpanTagChecks.t :=
  {| SpanTagChecks.name := doc_name data;
     SpanTagChecks.span_type := doc_type data;
     SpanTagChecks.tag_checks := make_tag_check <$> doc_tags data |}.

Definition load_span_tag_check (fs : filesystem) (p : path)
  (spec_index : option nat) : result SpanTagChecks.t :=
  match read_file fs p with
  | None => Raised (FileNotFoundError p)
  | Some data =>
      match spec_index, data with
      | None, JObject d => Done (make_checks d)
      | None, JArray _ => Raised (AttributeError "get")
      | Some i, JObject _ => Raised (IntKeyError i)
      | Some i, JArray ds =>
          match ds !! i with
          | Some d => Done (make_checks d)
          | None => Raised IndexError
          end
      end
  end.

(** The result of [find_span_tag_check]: a dictionary with at most the
    keys ["integration_span_check"] and ["type_span_check"]. *)
Record span_checks : Type := {
  integration_span_check : option SpanTagChecks.t;
  type_span_check : option SpanTagChecks.t;
}.

(** [span.get("meta", {}).get("component", "")] *)
Definition span_component (span : pydict) : result pyval :=
  match pd_get "meta" span with
  | None => Done (Leaf (VStr ""))
  | Some (Dict meta) =>
      match pd_get "component" meta with
      | Some c => Done c
      | None => Done (Leaf (VStr ""))
      end
  | Some (Leaf _) => Raised (AttributeError "get")
  end.

(** The index position chosen for a span of a known component. *)
Definition find_spec_index (specs : gmap string nat) (component : string)
  (span_name : option pyval) : result nat :=
  let wildcard :=
    match specs !! (component +:+ ".*") with
    | Some spec_index => Done spec_index
    | None => Raised (KeyError (component +:+ ".*"))
    end in
  match span_name with
  | Some (Dict _) => Raised TypeError
  | Some (Leaf (VStr n)) =>
      match specs !! n with
      | Some spec_index => Done spec_index
      | None => wildcard
      end
  | Some (Leaf _) | None => wildcard
  end.

Definition load_type_check (fs : filesystem) (LANGUAGE : string)
  (span_type : string) : result SpanTagChecks.t :=
  load_span_tag_check fs
    (DdtracePath (Leaf (VStr LANGUAGE)) (span_type +:+ "-spec.json")) None.

(** The first half of [find_span_tag_check]: the integration check and the
    type check its specification names. *)
Definition find_integration (self : t) (fs : filesystem) (LANGUAGE : string)
  (span : pydict) : result span_checks :=
  let none := {| integration_span_check := None; type_span_check := None |} in
  match span_component span with
  | Raised e => Raised e
  | Done (Dict _) => Raised TypeError
  | Done (Leaf (VStr component)) =>
      if String.eqb component "" then Done none else
      match integration_specs self !! component with
      | Some specs =>
          match find_spec_index specs component (pd_get "name" span) with
          | Raised e => Raised e
          | Done spec_index =>
              match load_span_tag_check fs
                      (IntegrationPath (component +:+ "-spec.json"))
                      (Some spec_index) with
              | Raised e => Raised e
              | Done integration =>
                  let found := {| integration_span_check := Some integration;
                                  type_span_check := None |} in
                  match SpanTagChecks.span_type integration with
                  | Some span_type =>
                      if negb (String.eqb span_type "")
                         && bool_decide (span_type ∈ TESTED_SPAN_TYPES)
                      then
                        match load_type_check fs LANGUAGE span_type with
                        | Raised e => Raised e
                        | Done type_check =>
                            Done {| integration_span_check := Some integration;
                                    type_span_check := Some type_check |}
                        end
                      else Done found
                  | None => Done found
                  end
              end
          end
      | None => Done none
      end
  | Done (Leaf _) => Done none
  end.

Definition find_span_tag_check (self : t) (fs : filesystem) (LANGUAGE : string)
  (span : pydict) : result span_checks :=
  match find_integration self fs LANGUAGE span with
  | Raised e => Raised e
  | Done checks =>
      match pd_get "type" span, integration_span_check checks with
      | Some (Leaf (VStr span_type)), None =>
          if negb (String.eqb span_type "")
             && bool_decide (span_type ∈ TESTED_SPAN_TYPES)
          then
            match load_type_check fs LANGUAGE span_type with
            | Raised e => Raised e
            | Done type_check =>
                Done {| integration_span_check := None;
                        type_span_check := Some type_check |}
            end
          else Done checks
      | _, _ => Done checks
      end
  end.

End SpanTagChecksLoader.

Inductive verdict : Type := PASS | WARN | FAIL.

Module SpanTagValidationCheck.

Record t : Type := {
  span : pydict;
  language : pyval;
  validate_all_tags : bool;
  main_tags_check : SpanTagChecks.t;
  span_tags_checks : list SpanTagChecks.t;
  tag_check : option SpanTagChecks.t;
  (** [self._tags] as [__init__] assigns it; the attribute is then the
      [_tags] of the state [check] runs in *)
  extracted_tags : gmap string leaf;
}.

(** [span_error and span_error == 1] *)
Definition error_is_one (span : pydict) : bool :=
  match pd_get "error" span with
  | Some (Leaf e) => leaf_truthy e && leaf_eq e (VInt 1)
  | Some (Dict _) | None => false
  end.

(** The value [validate_all_tags] takes when an integration check is given:
    [span_type == ""] is tested under [if span_type:]. *)
Definition validate_all_for (span : pydict) : result bool :=
  match pd_get "type" span with
  | Some (Dict (DCons _ _ _)) => Raised TypeError
  | Some span_type =>
      Done (truthy span_type
            && (py_eq (VStr "") span_type
                || in_span_types span_type && in_tested_span_types span_type))
  | None => Done false
  end.

Definition opt_list {A : Type} (o : option A) : list A :=
  match o with Some a => [a] | None => [] end.

Definition __init__ (fs : filesystem) (LANGUAGE : string) (span : pydict)
  (type_span_check integration_span_check first_in_chunk_span_check
     : option SpanTagChecks.t) : result t :=
  let language := default (Leaf (VStr LANGUAGE)) (pd_get "language" span) in
  let load file :=
    SpanTagChecksLoader.load_span_tag_check fs (DdtracePath language file) None in
  match load "general-spec.json" with
  | Raised e => Raised e
  | Done GENERAL_SPAN_CHECK =>
  match load "error-spec.json" with
  | Raised e => Raised e
  | Done ERROR_SPAN_CHECK =>
  match load "internal-spec.json" with
  | Raised e => Raised e
  | Done INTERNAL_SPAN_CHECK =>
      let checks := ([GENERAL_SPAN_CHECK; INTERNAL_SPAN_CHECK]
                     ++ opt_list first_in_chunk_span_check)%list in
      let checks :=
        if error_is_one span then list_insert_at 1 ERROR_SPAN_CHECK checks
        else checks in
      let checks := (checks ++ opt_list type_span_check
                            ++ opt_list integration_span_check)%list in
      match match integration_span_check with
            | Some _ => validate_all_for span
            | None => Done false
            end with
      | Raised e => Raised e
      | Done validate_all =>
      Done {|
        span := span;
        language := language;
        validate_all_tags := validate_all;
        main_tags_check :=
          match integration_span_check, type_span_check with
          | Some c, _ => c
          | None, Some c => c
          | None, None => GENERAL_SPAN_CHECK
          end;
        span_tags_checks := checks;
        tag_check := head checks;
        extracted_tags := extract_tags span ∅;
      |}
      end
  end end end.

(** Which of the three closing branches of [check] was taken. *)
Inductive outcome : Type :=
| unvalidated_tags_failure
| tags_not_asserted_on
| validation_success.

Definition check (self : t) : M check_state outcome :=
  for_each (λ span_tags_check, SpanTagChecks.check span_tags_check (span self))
    (span_tags_checks self) ;;
  s <- get ;;
  if bool_decide (0 < size (_tags s)) then
    if validate_all_tags self then
      span_name <- getitem (span self) "name" ;;
      match last (span_tags_checks self) with
      | None => raise UnboundLocalError
      | Some span_tags_check =>
          fail (UNVALIDATED_TAGS_ERROR span_name
                  (SpanTagChecks.name span_tags_check) (dom (_tags s))) ;;
          ret unvalidated_tags_failure
      end
    else ret tags_not_asserted_on
  else ret validation_success.

End SpanTagValidationCheck.

(** ** One validation run and its report *)

Record ValidationReport : Type := {
  report_failures : list message;
  report_leftover : gmap string leaf;
  report_verdict : verdict;
}.

(** Modelled from the spec: the verdict of a run.  The code that turns the
    recorded failures into a verdict ([CheckTrace] of module [checks] and
    its caller) is not part of the sources.  A run with a recorded failure
    is a FAIL; without one, the closing branch of [check] decides. *)
Definition verdict_of (failures : list message)
  (o : SpanTagValidationCheck.outcome) : verdict :=
  match failures with
  | _ :: _ => FAIL
  | [] =>
      match o with
      | SpanTagValidationCheck.unvalidated_tags_failure => FAIL
      | SpanTagValidationCheck.tags_not_asserted_on => WARN
      | SpanTagValidationCheck.validation_success => PASS
      end
  end.

(** The state a check object starts in: its own [_tags], no failure yet, and
    the dictionary [unpack] shares with every earlier run. *)
Definition start_state (shared : gmap string leaf)
  (self : SpanTagValidationCheck.t) : check_state :=
  {| unpack_initial := shared;
     _tags := SpanTagValidationCheck.extracted_tags self;
     failures := [] |}.

Definition report_of (self : SpanTagValidationCheck.t)
  (shared : gmap string leaf) : result ValidationReport * gmap string leaf :=
  match SpanTagValidationCheck.check self (start_state shared self) with
  | (Done o, s) =>
      (Done {| report_failures := failures s;
               report_leftover := _tags s;
               report_verdict := verdict_of (failures s) o |},
       unpack_initial s)
  | (Raised e, s) => (Raised e, unpack_initial s)
  end.

(** Modelled from the spec: one validation run of a span against a
    specification set (the caller of the check in the agent is not part of
    the sources): the loader finds the applicable checks, the check object
    is built on them and run.  [shared] is the dictionary of [unpack] as the
    earlier runs of the process left it; the run returns it updated. *)
Definition validate_span (loader : SpanTagChecksLoader.t) (fs : filesystem)
  (LANGUAGE : string) (first_in_chunk_span_check : option SpanTagChecks.t)
  (span : pydict) (shared : gmap string leaf)
  : result ValidationReport * gmap string leaf :=
  match SpanTagChecksLoader.find_span_tag_check loader fs LANGUAGE span with
  | Raised e => (Raised e, shared)
  | Done found =>
      match SpanTagValidationCheck.__init__ fs LANGUAGE span
              (SpanTagChecksLoader.type_span_check found)
              (SpanTagChecksLoader.integration_span_check found)
              first_in_chunk_span_check with
      | Raised e => (Raised e, shared)
      | Done self => report_of self shared
      end
  end.

(** ** [span_tag_validator.py] *)

(** A rule layer as [SpanTagValidator] reads it: its name, the expected
    values by tag in the order of [items()], the required and the optional
    tag names. *)
Record SpanTagRules : Type := {
  rules_name : string;
  _tag_comparisons : list (string * pyval);
  _required_tags : list string;
  _optional_tags : list string;
}.

(** The rule layers of [general_span_tag_rules_map], a table that is not
    part of the sources. *)
Record general_rules : Type := {
  GENERAL_SPAN_RULES : SpanTagRules;
  ERROR_SPAN_RULES : SpanTagRules;
  INTERNAL_SPAN_RULES : SpanTagRules;
}.

Module SpanTagValidator.

Record t : Type := {
  type_span_rules_exist : bool;
  keep_component_tag_for_later_match : bool;
  validate_all_tags : bool;
  span_tag_rules_list : list SpanTagRules;
  tag_rules : option SpanTagRules;
  (** assigned by [validate]; empty until then *)
  span : pydict;
  _tags : gmap string leaf;
}.

Definition opt_list {A : Type} (o : option A) : list A :=
  match o with Some a => [a] | None => [] end.

Definition __init__ (G : general_rules)
  (type_span_rules integration_base_span_rules integration_root_span_rules
     first_in_chunk_span_rules : option SpanTagRules) : t :=
  let rules := ([GENERAL_SPAN_RULES G; INTERNAL_SPAN_RULES G]
                ++ opt_list first_in_chunk_span_rules
                ++ opt_list type_span_rules
                ++ opt_list integration_base_span_rules
                ++ opt_list integration_root_span_rules)%list in
  {| type_span_rules_exist := bool_decide (is_Some type_span_rules);
     keep_component_tag_for_later_match :=
       bool_decide (is_Some integration_base_span_rules);
     validate_all_tags :=
       bool_decide (is_Some integration_base_span_rules)
       && bool_decide (is_Some integration_root_span_rules);
     span_tag_rules_list := rules;
     tag_rules := head rules;
     span := DNil;
     _tags := ∅ |}.

Definition set_tags (tags : gmap string leaf) (self : t) : t :=
  {| type_span_rules_exist := type_span_rules_exist self;
     keep_component_tag_for_later_match :=
       keep_component_tag_for_later_match self;
     validate_all_tags := validate_all_tags self;
     span_tag_rules_list := span_tag_rules_list self;
     tag_rules := tag_rules self;
     span := span self;
     _tags := tags |}.

Definition set_tag_rules (r : option SpanTagRules) (self : t) : t :=
  {| type_span_rules_exist := type_span_rules_exist self;
     keep_component_tag_for_later_match :=
       keep_component_tag_for_later_match self;
     validate_all_tags := validate_all_tags self;
     span_tag_rules_list := span_tag_rules_list self;
     tag_rules := r;
     span := span self;
     _tags := _tags self |}.

Definition set_span (sp : pydict) (self : t) : t :=
  {| type_span_rules_exist := type_span_rules_exist self;
     keep_component_tag_for_later_match :=
       keep_component_tag_for_later_match self;
     validate_all_tags := validate_all_tags self;
     span_tag_rules_list := span_tag_rules_list self;
     tag_rules := tag_rules self;
     span := sp;
     _tags := _tags self |}.

Definition set_rules_list (l : list SpanTagRules) (self : t) : t :=
  {| type_span_rules_exist := type_span_rules_exist self;
     keep_component_tag_for_later_match :=
       keep_component_tag_for_later_match self;
     validate_all_tags := validate_all_tags self;
     span_tag_rules_list := l;
     tag_rules := tag_rules self;
     span := span self;
     _tags := _tags self |}.

Definition set_validate_all (b : bool) (self : t) : t :=
  {| type_span_rules_exist := type_span_rules_exist self;
     keep_component_tag_for_later_match :=
       keep_component_tag_for_later_match self;
     validate_all_tags := b;
     span_tag_rules_list := span_tag_rules_list self;
     tag_rules := tag_rules self;
     span := span self;
     _tags := _tags self |}.

(** [del self._tags[tag]] *)
Definition del (tag : string) : M t unit :=
  modify (λ self, set_tags (delete tag (_tags self)) self).

(** A failed [assert]: the message is built first, and it reads
    [span['name']]. *)
Definition assertion_failure (msg : pyval → message) : M t unit :=
  self <- get ;;
  span_name <- getitem (span self) "name" ;;
  raise (AssertionError (msg span_name)).

Definition match_tag (rules : SpanTagRules) (e : string * pyval) : M t unit :=
  let '(e_k, e_v) := e in
  self <- get ;;
  match _tags self !! e_k with
  | None =>
      assertion_failure
        (λ n, TAG_MISSING_ASSERTION n (rules_name rules) e_k (dom (_tags self)))
  | Some v =>
      if py_eq v e_v then del e_k
      else assertion_failure
             (λ n, TAG_MISMATCH_ASSERTION n (rules_name rules) e_k v e_v)
  end.

Definition span_matching_tag_validator (rules : SpanTagRules) : M t unit :=
  match _tag_comparisons rules with
  | [] => ret tt
  | _ :: _ => for_each (match_tag rules) (_tag_comparisons rules)
  end.

Definition require_tag (rules : SpanTagRules) (tag_name : string) : M t unit :=
  self <- get ;;
  match _tags self !! tag_name with
  | None =>
      assertion_failure
        (λ n, TAG_MISSING_ASSERTION n (rules_name rules) tag_name
                (dom (_tags self)))
  | Some _ =>
      when (bool_decide (tag_name ≠ "component")
            || negb (keep_component_tag_for_later_match self))
        (del tag_name)
  end.

Definition span_required_tag_validator (rules : SpanTagRules) : M t unit :=
  match _required_tags rules with
  | [] => ret tt
  | _ :: _ => for_each (require_tag rules) (_required_tags rules)
  end.

Definition optional_tag (tag_name : string) : M t unit :=
  self <- get ;;
  when (bool_decide (is_Some (_tags self !! tag_name))) (del tag_name).

Definition span_optional_tag_validator (rules : SpanTagRules) : M t unit :=
  match _optional_tags rules with
  | [] => ret tt
  | _ :: _ => for_each optional_tag (_optional_tags rules)
  end.

(** [extract_tags(self, span, extracted_tags)]: as the one of the
    validation check, and ["type"] is skipped when type rules exist. *)
Fixpoint extract_tags (type_rules_exist : bool) (span : pydict)
  (extracted_tags : gmap string leaf) : gmap string leaf :=
  match span with
  | DNil => extracted_tags
  | DCons k v rest =>
      match v with
      | Dict d =>
          extract_tags type_rules_exist rest
            (extract_tags type_rules_exist d extracted_tags)
      | Leaf l =>
          if decide (k ∈ IGNORED_TAGS) then
            extract_tags type_rules_exist rest extracted_tags
          else if bool_decide (k = "type") && type_rules_exist then
            extract_tags type_rules_exist rest extracted_tags
          else extract_tags type_rules_exist rest (<[k := l]> extracted_tags)
      end
  end.

(** Modelled from the spec: the [validate] method of a rule layer, whose
    class (module [tag_rules]) is not part of the sources.  The three rule
    classes of a layer run in this order: exact-match comparisons,
    required tags, optional tags. *)
Definition rules_validate (rules : SpanTagRules) : M t unit :=
  span_matching_tag_validator rules ;;
  span_required_tag_validator rules ;;
  span_optional_tag_validator rules.

(** The body of the loop of [validate]; an [AssertionError] caught there
    is raised again. *)
Definition validate_layer (rules : SpanTagRules) : M t unit :=
  modify (set_tag_rules (Some rules)) ;;
  rules_validate rules.

Definition validate (G : general_rules) (sp : pydict) : M t unit :=
  modify (set_span sp) ;;
  self <- get ;;
  let main_tag_rules := last (span_tag_rules_list self) in
  error <- getitem sp "error" ;;
  when (truthy error)
    (modify (λ self, set_rules_list
               (list_insert_at 1 (ERROR_SPAN_RULES G) (span_tag_rules_list self))
               self)) ;;
  type <- getitem sp "type" ;;
  when (truthy type && negb (type_span_rules_exist self))
    (modify (set_validate_all false)) ;;
  modify (λ self, set_tags (extract_tags (type_span_rules_exist self) sp ∅) self) ;;
  self <- get ;;
  for_each validate_layer (span_tag_rules_list self) ;;
  modify (set_tag_rules main_tag_rules).

End SpanTagValidator.

(** Induction over a dictionary and the values in it. *)
Scheme pydict_mut := Induction for pydict Sort Prop
  with pyval_mut := Induction for pyval Sort Prop.

(** ** Statements about the runs *)

(** The attributes of the validator other than [_tags] and [tag_rules]:
    the passes leave them as they are. *)
Definition frame (self : SpanTagValidator.t)
  : bool * bool * bool * list SpanTagRules * pydict :=
  (SpanTagValidator.type_span_rules_exist self,
   SpanTagValidator.keep_component_tag_for_later_match self,
   SpanTagValidator.validate_all_tags self,
   SpanTagValidator.span_tag_rules_list self, SpanTagValidator.span self).

Definition framed (f : bool * bool * bool * list SpanTagRules * pydict)
  (self : SpanTagValidator.t) : Prop := frame self = f.

(** [m] keeps the property [P] of the state, whether it returns or raises. *)
Definition preserves {S A : Type} (P : S → Prop) (m : M S A) : Prop :=
  ∀ s, P s → P (m s).2.

(** The violations of one rule on the flattened span, in the words of the
    error taxonomy: a required tag that is missing, an expected value that
    is not the tag's value, a declared type that is not the type of the
    tag's value. *)
Definition type_violation (tag : string) (val_type : option string) (v : leaf)
  : list message :=
  match val_type with
  | Some ty =>
      match string_to_type_map !! ty with
      | Some expected =>
          if val_type_set (Some ty) && bool_decide (type_of v ≠ expected)
          then [TAG_VALUE_TYPE_ERROR tag ty (type_of v)] else []
      | None => []
      end
  | None => []
  end.

Definition violations (flattened : gmap string leaf) (span_name : pyval)
  (check_name : string) (rule : TagCheck.t) : list message :=
  match flattened !! TagCheck.name rule with
  | None =>
      if TagCheck.required rule
      then [REQUIRED_TAG_ERROR (TagCheck.name rule) span_name check_name]
      else []
  | Some v =>
      if TagCheck.required rule && truthy (TagCheck.value rule) then
        if py_eq v (TagCheck.value rule) then []
        else [MATCHING_TAG_ERROR (TagCheck.name rule) (TagCheck.value rule)
                span_name check_name]
      else type_violation (TagCheck.name rule) (TagCheck.val_type rule) v
  end.

(** The exception [TagCheck.check] ends with, if any: [KeyError] where it
    reads the value of a required tag that is missing, or looks a type name
    up that [string_to_type_map] does not have. *)
Definition unknown_type (val_type : option string) : option exn :=
  match val_type with
  | Some ty =>
      if val_type_set (Some ty) && bool_decide (string_to_type_map !! ty = None)
      then Some (KeyError ty) else None
  | None => None
  end.

Definition rule_exception (flattened : gmap string leaf) (rule : TagCheck.t)
  : option exn :=
  match flattened !! TagCheck.name rule with
  | None =>
      if TagCheck.required rule
         && (truthy (TagCheck.value rule) || val_type_set (TagCheck.val_type rule))
      then Some (KeyError (TagCheck.name rule)) else None
  | Some _ =>
      if TagCheck.required rule && truthy (TagCheck.value rule) then None
      else unknown_type (TagCheck.val_type rule)
  end.

Definition result_of (e : option exn) : result unit :=
  match e with
  | Some e => Raised e
  | None => Done tt
  end.

Definition record_failures (flattened : gmap string leaf) (msgs : list message)
  (s : check_state) : check_state :=
  {| unpack_initial := flattened; _tags := _tags s;
     failures := (failures s ++ msgs)%list |}.

Definition consume (tag : string) (s : check_state) : check_state :=
  {| unpack_initial := unpack_initial s; _tags := delete tag (_tags s);
     failures := failures s |}.

(** The working set once the rules of a layer, of a plan, have each removed
    their tag. *)
Definition layer_leftover (tags : gmap string leaf) (layer : SpanTagChecks.t)
  : gmap string leaf :=
  foldl (λ m rule, delete (TagCheck.name rule) m) tags
    (SpanTagChecks.tag_checks layer).

Definition plan_leftover (tags : gmap string leaf)
  (plan : list SpanTagChecks.t) : gmap string leaf :=
  foldl layer_leftover tags plan.

(** The violations of every rule of a layer, of every layer of a plan, in
    the order of the rules. *)
Definition layer_violations (flattened : gmap string leaf) (span_name : pyval)
  (layer : SpanTagChecks.t) : list message :=
  flat_map (violations flattened span_name (SpanTagChecks.name layer))
    (SpanTagChecks.tag_checks layer).

Definition plan_violations (flattened : gmap string leaf) (span_name : pyval)
  (plan : list SpanTagChecks.t) : list message :=
  flat_map (layer_violations flattened span_name) plan.

(** No rule of the layer makes [TagCheck.check] raise. *)
Definition layer_safe (flattened : gmap string leaf) (layer : SpanTagChecks.t)
  : Prop :=
  Forall (λ rule, rule_exception flattened rule = None)
    (SpanTagChecks.tag_checks layer).

(** The failure the closing branch of [check] adds. *)
Definition closing_failure (o : SpanTagValidationCheck.outcome)
  (span_name : pyval) (plan : list SpanTagChecks.t)
  (leftover : gmap string leaf) : list message :=
  match o, last plan with
  | SpanTagValidationCheck.unvalidated_tags_failure, Some layer =>
      [UNVALIDATED_TAGS_ERROR span_name (SpanTagChecks.name layer) (dom leftover)]
  | _, _ => []
  end.

(** ** Example specifications, spans and runs *)

Definition redis_command_doc : spec_doc :=
  {| doc_name := "redis.command"; doc_type := None;
     doc_tags := [("redis.raw_command",
                   {| ts_required := true; ts_type := Some "string";
                      ts_value := Leaf VNone |})] |}.

Definition redis_default_doc : spec_doc :=
  {| doc_name := "redis.*"; doc_type := None;
     doc_tags := [("component",
                   {| ts_required := true; ts_type := None;
                      ts_value := Leaf (VStr "redis") |})] |}.

Definition redis_fs : filesystem :=
  {| integration_dir :=
       Some [("redis-spec.json", JArray [redis_command_doc; redis_default_doc])];
     ddtrace_file := λ _ _, None |}.

(** The index [{"redis": {"redis.command": 0, "redis.*": 1}}]. *)
Definition redis_loader : SpanTagChecksLoader.t :=
  {| SpanTagChecksLoader.integration_specs :=
       {["redis" := <["redis.command" := 0]> {["redis.*" := 1]}]} |}.

Definition redis_unusual_span : pydict :=
  DCons "name" (Leaf (VStr "redis.unusual"))
    (DCons "meta" (Dict (DCons "component" (Leaf (VStr "redis")) DNil)) DNil).

(** The integration directory with a file that lists the rule set of
    ["redis.command"] and no rule set named ["redis.*"]. *)
Definition redis_fs_no_wildcard : filesystem :=
  {| integration_dir := Some [("redis-spec.json", JArray [redis_command_doc])];
     ddtrace_file := λ _ _, None |}.

Definition required_tag (tag : string) : string * tag_spec :=
  (tag, {| ts_required := true; ts_type := None; ts_value := Leaf VNone |}).

Definition general_doc : spec_doc :=
  {| doc_name := "general"; doc_type := None;
     doc_tags := [required_tag "language"] |}.

Definition error_doc : spec_doc :=
  {| doc_name := "error"; doc_type := None;
     doc_tags := [required_tag "error.msg"] |}.

Definition internal_doc : spec_doc :=
  {| doc_name := "internal"; doc_type := None; doc_tags := [] |}.

Definition first_in_chunk_doc : spec_doc :=
  {| doc_name := "first_in_chunk"; doc_type := None;
     doc_tags := [required_tag "runtime-id"] |}.

(** The three base specifications, for every language, and an empty
    integration directory. *)
Definition base_fs : filesystem :=
  {| integration_dir := Some [];
     ddtrace_file := λ _ file,
       if String.eqb file "general-spec.json" then Some (JObject general_doc)
       else if String.eqb file "error-spec.json" then Some (JObject error_doc)
       else if String.eqb file "internal-spec.json"
            then Some (JObject internal_doc)
       else None |}.

Definition chunk_root_span : pydict :=
  DCons "name" (Leaf (VStr "web.request"))
    (DCons "error" (Leaf (VInt 0))
       (DCons "meta"
          (Dict (DCons "language" (Leaf (VStr "python"))
                   (DCons "runtime-id" (Leaf (VStr "r1")) DNil)))
          DNil)).

Definition redis_general_rules : general_rules :=
  {| GENERAL_SPAN_RULES :=
       {| rules_name := "general"; _tag_comparisons := [];
          _required_tags := ["language"]; _optional_tags := [] |};
     ERROR_SPAN_RULES :=
       {| rules_name := "error"; _tag_comparisons := [];
          _required_tags := ["error.msg"]; _optional_tags := [] |};
     INTERNAL_SPAN_RULES :=
       {| rules_name := "internal"; _tag_comparisons := [];
          _required_tags := []; _optional_tags := [] |} |}.

Definition redis_base_rules : SpanTagRules :=
  {| rules_name := "redis"; _tag_comparisons := [];
     _required_tags := ["component"]; _optional_tags := [] |}.

Definition redis_root_rules : SpanTagRules :=
  {| rules_name := "redis-root"; _tag_comparisons := [];
     _required_tags := ["component"; "redis.raw_command"];
     _optional_tags := [] |}.

Definition redis_command_span : pydict :=
  DCons "name" (Leaf (VStr "redis.command"))
    (DCons "error" (Leaf (VInt 0))
       (DCons "type" (Leaf VNone)
          (DCons "meta"
             (Dict (DCons "language" (Leaf (VStr "python"))
                      (DCons "component" (Leaf (VStr "redis"))
                         (DCons "redis.raw_command" (Leaf (VStr "GET")) DNil))))
             DNil))).

Definition redis_validator : SpanTagValidator.t :=
  SpanTagValidator.__init__ redis_general_rules None (Some redis_base_rules)
    (Some redis_root_rules) None.

Definition kind_rule : TagCheck.t :=
  {| TagCheck.name := "span.kind"; TagCheck.val_type := None;
     TagCheck.required := true; TagCheck.value := Leaf (VStr "client") |}.

Definition http_layer : SpanTagChecks.t :=
  {| SpanTagChecks.name := "http"; SpanTagChecks.span_type := None;
     SpanTagChecks.tag_checks := [kind_rule] |}.

Definition server_span : pydict :=
  DCons "name" (Leaf (VStr "web.request"))
    (DCons "meta" (Dict (DCons "span.kind" (Leaf (VStr "server")) DNil)) DNil).

Definition redis_get_span : pydict :=
  DCons "name" (Leaf (VStr "redis.command"))
    (DCons "error" (Leaf (VInt 0))
       (DCons "type" (Leaf VNone)
          (DCons "meta" (Dict (DCons "language" (Leaf (VStr "python")) DNil))
             DNil))).

Definition base_loader : SpanTagChecksLoader.t :=
  {| SpanTagChecksLoader.integration_specs := ∅ |}.

(** A span without the [language] tag the general layer requires, and a
    span that has it. *)
Definition bare_span : pydict :=
  DCons "name" (Leaf (VStr "a"))
    (DCons "error" (Leaf (VInt 0)) (DCons "meta" (Dict DNil) DNil)).

Definition python_span : pydict :=
  DCons "name" (Leaf (VStr "b"))
    (DCons "error" (Leaf (VInt 0))
       (DCons "meta" (Dict (DCons "language" (Leaf (VStr "python")) DNil)) DNil)).

(** The check object [__init__] builds for [chunk_root_span] with a
    first-in-chunk check. *)
Definition chunk_root_check : SpanTagValidationCheck.t :=
  {| SpanTagValidationCheck.span := chunk_root_span;
     SpanTagValidationCheck.language := Leaf (VStr "default");
     SpanTagValidationCheck.validate_all_tags := false;
     SpanTagValidationCheck.main_tags_check :=
       SpanTagChecksLoader.make_checks general_doc;
     SpanTagValidationCheck.span_tags_checks :=
       [SpanTagChecksLoader.make_checks general_doc;
        SpanTagChecksLoader.make_checks internal_doc;
        SpanTagChecksLoader.make_checks first_in_chunk_doc];
     SpanTagValidationCheck.tag_check :=
       Some (SpanTagChecksLoader.make_checks general_doc);
     SpanTagValidationCheck.extracted_tags := extract_tags chunk_root_span ∅ |}.

Definition http_request_span : pydict :=
  DCons "name" (Leaf (VStr "web.request"))
    (DCons "type" (Leaf (VStr "http"))
       (DCons "error" (Leaf (VInt 0))
          (DCons "meta"
             (Dict (DCons "language" (Leaf (VStr "python"))
                      (DCons "span.kind" (Leaf (VStr "client")) DNil)))
             DNil))).


(** The validator of the redis layers once [validate] has set the span and
    extracted its tags. *)
Definition redis_state : SpanTagValidator.t :=
  SpanTagValidator.set_tags
    (SpanTagValidator.extract_tags false redis_command_span ∅)
    (SpanTagValidator.set_span redis_command_span redis_validator).

Definition server_state : check_state :=
  {| unpack_initial := ∅; _tags := extract_tags server_span ∅; failures := [] |}.

(** The validator once [validate] has extracted the tags of
    [redis_get_span], and after the general and the internal layer. *)
Definition redis_get_state : SpanTagValidator.t :=
  SpanTagValidator.set_tags
    (SpanTagValidator.extract_tags false redis_get_span ∅)
    (SpanTagValidator.set_span redis_get_span redis_validator).

Definition redis_get_before_base : SpanTagValidator.t :=
  (for_each SpanTagValidator.validate_layer
     [GENERAL_SPAN_RULES redis_general_rules;
      INTERNAL_SPAN_RULES redis_general_rules] redis_get_state).2.

Definition redis_get_missing_component : exn :=
  AssertionError
    (TAG_MISSING_ASSERTION (Leaf (VStr "redis.command")) "redis" "component"
       (dom (SpanTagValidator._tags redis_get_before_base))).

Definition chunk_root_report : ValidationReport :=
  {| report_failures := [];
     report_leftover := {["error" := VInt 0]};
     report_verdict := WARN |}.

(** ** [trace_checks.py] *)

(** The failure messages of the trace checks, kept as the values they
    interpolate. *)
Inductive trace_message : Type :=
| TRACE_COUNT_NOT_FOUND
| TRACE_COUNT_NOT_INTEGER
| TRACE_COUNT_MISMATCH (count num_traces : Z)
| TRACER_VERSION_NOT_FOUND
| CONTENT_LENGTH_NOT_FOUND (headers : gmap string string)
| CONTENT_LENGTH_TOO_LARGE (content_length : Z)
| PROPERTY_MISMATCH (property_name : string) (actual : pyval) (expected : string)
| TAG_NOT_PRESENT (tagname : string)
| TAG_MISMATCH (tagname : string) (actual : pyval) (expected : string).

(** A check object of [trace_checks.py]: the span [using_span] binds, and
    the messages given to [fail] (recorded as by [fail] above), oldest
    first. *)
Record trace_check : Type := {
  check_span : option pydict;
  check_failures : list trace_message;
}.

(** Modelled from the spec: [Check.fail] of module [checks], which is not
    part of the sources, for the checks of [trace_checks.py]: the message is
    recorded and the call returns, as for [fail] above. *)
Definition trace_fail (msg : trace_message) : M trace_check unit :=
  modify (λ c, {| check_span := check_span c;
                  check_failures := (check_failures c ++ [msg])%list |}).

Definition set_check_span (span : option pydict) : M trace_check unit :=
  modify (λ c, {| check_span := span; check_failures := check_failures c |}).

Definition no_failure : trace_check :=
  {| check_span := None; check_failures := [] |}.

(** What a check that converts a header with [int] ends with: it returns,
    or [int] raises [ValueError] out of it. *)
Inductive header_result : Type :=
| Returns (self : trace_check)
| RaisesValueError (self : trace_check).

Section header_checks.

(** [int(s)] on a header value: the integer the string denotes, [None] where
    Python raises [ValueError]. *)
Variable py_int : string → option Z.

(** One call of [self.fail(msg)] on the check object. *)
Definition failed (msg : trace_message) (self : trace_check) : trace_check :=
  {| check_span := check_span self;
     check_failures := (check_failures self ++ [msg])%list |}.

(** [CheckTraceCountHeader.check(headers, num_traces)]: the [ValueError] of
    [int] is caught. *)
Definition CheckTraceCountHeader_check (headers : gmap string string)
  (num_traces : Z) (self : trace_check) : header_result :=
  match headers !! "X-Datadog-Trace-Count" with
  | None => Returns (failed TRACE_COUNT_NOT_FOUND self)
  | Some value =>
      match py_int value with
      | None => Returns (failed TRACE_COUNT_NOT_INTEGER self)
      | Some count =>
          if negb (num_traces =? count)%Z
          then Returns (failed (TRACE_COUNT_MISMATCH count num_traces) self)
          else Returns self
      end
  end.

(** [CheckMetaTracerVersionHeader.check(headers)] *)
Definition CheckMetaTracerVersionHeader_check (headers : gmap string string)
  (self : trace_check) : header_result :=
  match headers !! "Datadog-Meta-Tracer-Version" with
  | None => Returns (failed TRACER_VERSION_NOT_FOUND self)
  | Some _ => Returns self
  end.

(** [CheckTraceContentLength.check(headers)]; [5e7] is the float
    50000000.0, which an integer exceeds exactly when it exceeds
    50000000. *)
Definition CheckTraceContentLength_check (headers : gmap string string)
  (self : trace_check) : header_result :=
  match headers !! "Content-Length" with
  | None => Returns (failed (CONTENT_LENGTH_NOT_FOUND headers) self)
  | Some value =>
      match py_int value with
      | None => RaisesValueError self
      | Some content_length =>
          if (50000000 <? content_length)%Z
          then Returns (failed (CONTENT_LENGTH_TOO_LARGE content_length) self)
          else Returns self
      end
  end.

End header_checks.

(** [CheckHttpSpanStructure] and [SpanSpec]. *)
Module CheckHttpSpanStructure.

(** [self.span[key]]: outside [using_span] the attribute is [None]. *)
Definition self_span_getitem (key : string) : M trace_check pyval :=
  self <- get ;;
  match check_span self with
  | None => raise TypeError
  | Some span => getitem span key
  end.

(** [v == expected] for a value of a span and a string. *)
Definition eq_str (v : pyval) (expected : string) : bool :=
  match v with
  | Leaf (VStr s) => String.eqb s expected
  | _ => false
  end.

(** [container[key]] for a string key: a dictionary is looked up, any other
    value cannot be indexed by a string. *)
Definition subscript (container : pyval) (key : string) : M trace_check pyval :=
  match container with
  | Dict d => getitem d key
  | Leaf _ => raise TypeError
  end.

(** [key in container]: the keys of a dictionary, the substrings of a
    string; other values are not iterable. *)
Definition contains (container : pyval) (key : string) : M trace_check bool :=
  match container with
  | Dict d => ret (bool_decide (is_Some (pd_get key d)))
  | Leaf (VStr s) => ret (bool_decide (is_Some (String.index 0 key s)))
  | Leaf _ => raise TypeError
  end.

Definition property_matches (property_name expected_value : string)
  : M trace_check unit :=
  actual_value <- self_span_getitem property_name ;;
  actual <- self_span_getitem property_name ;;
  when (negb (eq_str actual expected_value))
    (trace_fail (PROPERTY_MISMATCH property_name actual_value expected_value)).

Definition tag_is_present (tagname : string) : M trace_check unit :=
  meta <- self_span_getitem "meta" ;;
  present <- contains meta tagname ;;
  when (negb present) (trace_fail (TAG_NOT_PRESENT tagname)).

Definition tag_matches (tagname expected_value : string) : M trace_check unit :=
  meta <- self_span_getitem "meta" ;;
  actual_value <- subscript meta tagname ;;
  meta <- self_span_getitem "meta" ;;
  actual <- subscript meta tagname ;;
  when (negb (eq_str actual expected_value))
    (trace_fail (TAG_MISMATCH tagname actual_value expected_value)).

(** [SpanSpec.http_client(check)] *)
Definition http_client : M trace_check unit :=
  tag_is_present "http.method" ;;
  tag_is_present "http.status_code" ;;
  tag_is_present "http.url" ;;
  tag_matches "span.kind" "client" ;;
  property_matches "type" "http".

(** [with self.using_span(span) as assertion: body]: the span is bound, and
    unbound again when the body returns and when it raises. *)
Definition using_span {A : Type} (span : pydict) (body : M trace_check A)
  : M trace_check A :=
  λ self,
    match (set_check_span (Some span) ;; body) self with
    | (r, self') => (r, (set_check_span None self').2)
    end.

(** The body of the inner loop of [check]. *)
Definition check_one (span : pydict) : M trace_check unit :=
  using_span span
    (type <- getitem span "type" ;;
     if eq_str type "http" then
       meta <- getitem span "meta" ;;
       kind <- subscript meta "span.kind" ;;
       when (eq_str kind "client") http_client
     else ret tt).

Definition check (traces : list (list pydict)) : M trace_check unit :=
  for_each (λ trace, for_each check_one trace) traces.

End CheckHttpSpanStructure.

(** ** Statements about the passes and the loader *)

(** The working set once each tag of a list has been deleted. *)
Definition remove_tags (tags : gmap string leaf) (names : list string)
  : gmap string leaf :=
  foldl (λ m tag, delete tag m) tags names.

(** The required tags the required pass deletes: all of them, but
    [component] when the validator keeps it. *)
Definition deleted_by_required (self : SpanTagValidator.t) (names : list string)
  : list string :=
  filter (λ tag, tag ≠ "component"
                 ∨ SpanTagValidator.keep_component_tag_for_later_match self = false)
    names.

(** The tags the rules of a plan name. *)
Definition plan_tag_names (plan : list SpanTagChecks.t) : list string :=
  flat_map (λ layer, TagCheck.name <$> SpanTagChecks.tag_checks layer) plan.

(** The three tags [SpanSpec.http_client] asks for that a [meta] dictionary
    does not have. *)
Definition missing_http_tags (meta : pydict) : list trace_message :=
  flat_map (λ tag, match pd_get tag meta with
                   | Some _ => []
                   | None => [TAG_NOT_PRESENT tag]
                   end)
    ["http.method"; "http.status_code"; "http.url"].

(** The position of the last document of a list that has a given name. *)
Fixpoint last_named (name : string) (ds : list spec_doc) : option nat :=
  match ds with
  | [] => None
  | d :: rest =>
      match last_named name rest with
      | Some i => Some (S i)
      | None => if decide (doc_name d = name) then Some 0 else None
      end
  end.

(** ** More example data *)

Definition http_doc : spec_doc :=
  {| doc_name := "http"; doc_type := None;
     doc_tags := [required_tag "http.method"; required_tag "http.url"] |}.

(** The base specifications and [http-spec.json]. *)
Definition http_fs : filesystem :=
  {| integration_dir := Some [];
     ddtrace_file := λ language file,
       if String.eqb file "http-spec.json" then Some (JObject http_doc)
       else ddtrace_file base_fs language file |}.

(** A layer that names [language] twice among its required tags. *)
Definition twice_required_rules : SpanTagRules :=
  {| rules_name := "twice"; _tag_comparisons := [];
     _required_tags := ["language"; "language"]; _optional_tags := [] |}.

Definition redis_files : list (string * file_data) :=
  [("redis-spec.json", JArray [redis_command_doc; redis_default_doc])].

Definition http_request_meta : pydict :=
  DCons "language" (Leaf (VStr "python"))
    (DCons "span.kind" (Leaf (VStr "client")) DNil).

(** The comparisons of a layer, as the state of the validator they hold
    in: each tag is in the working set with a value equal to the expected
    one. *)
Definition comparisons_hold (tags : gmap string leaf)
  (comparisons : list (string * pyval)) : Prop :=
  Forall (λ e, ∃ v, tags !! e.1 = Some v ∧ py_eq v e.2 = true) comparisons.

Definition redis_object_files : list (string * file_data) :=
  [("redis-spec.json", JObject redis_default_doc)].

Definition redis_object_fs : filesystem :=
  {| integration_dir := Some redis_object_files;
     ddtrace_file := λ _ _, None |}.

Definition redis_match_rules : SpanTagRules :=
  {| rules_name := "redis-match";
     _tag_comparisons := [("component", Leaf (VStr "redis"));
                          ("language", Leaf (VStr "python"))];
     _required_tags := []; _optional_tags := [] |}.

(** ** Violations as the validator meets them *)

(** A comparison that a working set does not satisfy: its tag is missing or
    has a value other than the expected one. *)
Definition comparison_violated (tags : gmap string leaf) (e : string * pyval)
  : Prop :=
  match tags !! e.1 with
  | Some v => py_eq v e.2 = false
  | None => True
  end.

(** A layer that the working set violates: one of its comparisons is not
    satisfied, or one of its required tags is missing. *)
Definition layer_violated (tags : gmap string leaf) (rules : SpanTagRules)
  : Prop :=
  Exists (comparison_violated tags) (_tag_comparisons rules)
  ∨ Exists (λ tag, tags !! tag = None) (_required_tags rules).

(** What the message of an [AssertionError] says, read against the working
    set [tags] a layer started with: a tag-missing message names a tag the
    layer asks for that is not among the keys it lists, and these are keys
    of [tags]; a tag-mismatch message names a comparison of the layer, the
    value the tag has in [tags], and that value differs from the expected
    one. *)
Definition reports_violation (span_name : pyval) (layer : string)
  (comparisons : list (string * pyval)) (required : list string)
  (tags : gmap string leaf) (msg : message) : Prop :=
  match msg with
  | TAG_MISSING_ASSERTION n l tag keys =>
      n = span_name ∧ l = layer ∧ (tag ∉ keys) ∧ keys ⊆ dom tags
      ∧ (tag ∈ (comparisons.*1) ∨ tag ∈ required)
  | TAG_MISMATCH_ASSERTION n l tag actual expected =>
      n = span_name ∧ l = layer ∧ (tag, expected) ∈ comparisons
      ∧ tags !! tag = Some actual ∧ py_eq actual expected = false
  | _ => False
  end.

(** A server span of a web framework: no [runtime-id], [span.kind] is
    ["server"], and the status code is a string. *)
Definition web_server_span : pydict :=
  DCons "name" (Leaf (VStr "web.request"))
    (DCons "type" (Leaf (VStr "http"))
       (DCons "error" (Leaf (VInt 0))
          (DCons "meta"
             (Dict (DCons "language" (Leaf (VStr "python"))
                      (DCons "span.kind" (Leaf (VStr "server"))
                         (DCons "http.status_code" (Leaf (VStr "200")) DNil))))
             DNil))).

Definition status_rule : TagCheck.t :=
  {| TagCheck.name := "http.status_code"; TagCheck.val_type := Some "integer";
     TagCheck.required := true; TagCheck.value := Leaf VNone |}.

Definition http_client_layer : SpanTagChecks.t :=
  {| SpanTagChecks.name := "http"; SpanTagChecks.span_type := None;
     SpanTagChecks.tag_checks := [kind_rule; status_rule] |}.

(** The check object [__init__] builds for [web_server_span] with a
    first-in-chunk check and [http_client_layer] as its integration
    check. *)
Definition web_server_check : SpanTagValidationCheck.t :=
  {| SpanTagValidationCheck.span := web_server_span;
     SpanTagValidationCheck.language := Leaf (VStr "default");
     SpanTagValidationCheck.validate_all_tags := true;
     SpanTagValidationCheck.main_tags_check := http_client_layer;
     SpanTagValidationCheck.span_tags_checks :=
       [SpanTagChecksLoader.make_checks general_doc;
        SpanTagChecksLoader.make_checks internal_doc;
        SpanTagChecksLoader.make_checks first_in_chunk_doc;
        http_client_layer];
     SpanTagValidationCheck.tag_check :=
       Some (SpanTagChecksLoader.make_checks general_doc);
     SpanTagValidationCheck.extracted_tags := extract_tags web_server_span ∅ |}.

(** The same rules as the validator reads them, and the validator built on
    them, once [validate] has set the span and extracted its tags, and
    after the general and the internal layer. *)
Definition http_client_rules : SpanTagRules :=
  {| rules_name := "http";
     _tag_comparisons := [("span.kind", Leaf (VStr "client"))];
     _required_tags := ["http.status_code"]; _optional_tags := [] |}.

Definition runtime_rules : SpanTagRules :=
  {| rules_name := "first_in_chunk"; _tag_comparisons := [];
     _required_tags := ["runtime-id"]; _optional_tags := [] |}.

Definition web_validator : SpanTagValidator.t :=
  SpanTagValidator.__init__ redis_general_rules None (Some http_client_rules)
    (Some runtime_rules) None.

Definition web_server_state : SpanTagValidator.t :=
  SpanTagValidator.set_tags
    (SpanTagValidator.extract_tags false web_server_span ∅)
    (SpanTagValidator.set_span web_server_span web_validator).

Definition web_server_before_http : SpanTagValidator.t :=
  (for_each SpanTagValidator.validate_layer
     [GENERAL_SPAN_RULES redis_general_rules;
      INTERNAL_SPAN_RULES redis_general_rules] web_server_state).2.

(** Two spans that ended in an error: one with a type, one without. *)
Definition redis_failed_span : pydict :=
  DCons "name" (Leaf (VStr "redis.command"))
    (DCons "error" (Leaf (VInt 1))
       (DCons "type" (Leaf (VStr "redis"))
          (DCons "meta" (Dict (DCons "language" (Leaf (VStr "python")) DNil))
             DNil))).

Definition untyped_failed_span : pydict :=
  DCons "name" (Leaf (VStr "redis.command"))
    (DCons "error" (Leaf (VInt 1))
       (DCons "type" (Leaf VNone)
          (DCons "meta" (Dict (DCons "language" (Leaf (VStr "python")) DNil))
             DNil))).

(** * Properties *)

(** ** Flattening *)

Lemma last_leaf_app (key : string) (l1 l2 : list (string * leaf)) :
  last_leaf key (l1 ++ l2)%list =
  match last_leaf key l2 with
  | Some v => Some v
  | None => last_leaf key l1
  end.
Proof.
  induction l1 as [|[k l] l1 IH]; simpl.
  - by destruct (last_leaf key l2).
  - rewrite IH. destruct (last_leaf key l2); [done|].
    by destruct (last_leaf key l1).
Qed.

Lemma unpack_lookup (data : pydict) :
  ∀ (initial : gmap string leaf) (key : string),
    unpack data initial !! key =
    match last_leaf key (leaves data) with
    | Some v => Some v
    | None => initial !! key
    end.
Proof.
  induction data as [|k v IHv rest IHrest|l|d IHd]
    using pydict_mut
    with (P0 := λ v, ∀ d, v = Dict d →
                  ∀ (initial : gmap string leaf) (key : string),
                    unpack d initial !! key =
                    match last_leaf key (leaves d) with
                    | Some x => Some x
                    | None => initial !! key
                    end).
  - done.
  - intros initial key. destruct v as [l|d]; simpl.
    + rewrite IHrest. destruct (last_leaf key (leaves rest)); [done|].
      rewrite lookup_insert. by case_decide.
    + rewrite IHrest, last_leaf_app.
      destruct (last_leaf key (leaves rest)); [done|].
      by apply IHv.
  - discriminate.
  - intros d' [= <-]. exact IHd.
Qed.

Lemma extract_tags_lookup (span : pydict) :
  ∀ (extracted_tags : gmap string leaf) (key : string),
    extract_tags span extracted_tags !! key =
    if decide (key ∈ IGNORED_TAGS) then extracted_tags !! key
    else match last_leaf key (leaves span) with
         | Some v => Some v
         | None => extracted_tags !! key
         end.
Proof.
  induction span as [|k v IHv rest IHrest|l|d IHd]
    using pydict_mut
    with (P0 := λ v, ∀ d, v = Dict d →
                  ∀ (extracted_tags : gmap string leaf) (key : string),
                    extract_tags d extracted_tags !! key =
                    if decide (key ∈ IGNORED_TAGS) then extracted_tags !! key
                    else match last_leaf key (leaves d) with
                         | Some x => Some x
                         | None => extracted_tags !! key
                         end).
  - intros ? key. simpl. by case_decide.
  - intros extracted_tags key. destruct v as [l|d]; simpl.
    + destruct (decide (k ∈ IGNORED_TAGS)) as [Hk|Hk]; rewrite IHrest.
      * destruct (decide (key ∈ IGNORED_TAGS)) as [|Hkey]; [done|].
        destruct (last_leaf key (leaves rest)); [done|].
        case_decide; [congruence|done].
      * destruct (decide (key ∈ IGNORED_TAGS)) as [Hkey|Hkey].
        -- rewrite lookup_insert_ne; [done|congruence].
        -- destruct (last_leaf key (leaves rest)); [done|].
           rewrite lookup_insert. by case_decide.
    + rewrite IHrest, last_leaf_app.
      rewrite (IHv d eq_refl).
      destruct (decide (key ∈ IGNORED_TAGS)); [done|].
      by destruct (last_leaf key (leaves rest)).
  - discriminate.
  - intros d' [= <-]. exact IHd.
Qed.

(** A rule's tag found by [unpack] stays found: a second call on the same
    span changes nothing. *)
Lemma unpack_idem (data : pydict) (initial : gmap string leaf) :
  unpack data (unpack data initial) = unpack data initial.
Proof.
  apply map_eq. intros key. rewrite !unpack_lookup.
  by destruct (last_leaf key (leaves data)).
Qed.

(** C9: flattening a span with [extract_tags] gives exactly the leaf keys
    that are not baseline fields, each under its own name whatever the depth
    of the namespace it sits in, with the value of the last leaf of that name
    the traversal meets; [unpack] does the same without the exclusion, on top
    of the dictionary it is given. *)
Theorem flatten_last_write_wins (span : pydict) :
  (∀ key : string,
     extract_tags span ∅ !! key =
     if decide (key ∈ IGNORED_TAGS) then None
     else last_leaf key (leaves span))
  ∧ (∀ (initial : gmap string leaf) (key : string),
       unpack span initial !! key =
       match last_leaf key (leaves span) with
       | Some v => Some v
       | None => initial !! key
       end).
Proof.
  split.
  - intros key. rewrite extract_tags_lookup, lookup_empty.
    case_decide; [done|]. by destruct (last_leaf key (leaves span)).
  - apply unpack_lookup.
Qed.

(** ** Looking up the integration specification *)

(** C6: for a span whose component is in the integration index, the
    integration check is the document of the component's file at the
    position the index gives for the span's exact name, and at the position
    of the key ["<component>.*"] only when the name has no entry.  The call
    returns that check unless loading the type specification the document
    names raises. *)
Theorem find_span_tag_check_wildcard_fallback
  (self : SpanTagChecksLoader.t) (fs : filesystem) (LANGUAGE : string)
  (span : pydict) (component span_name : string) (specs : gmap string nat)
  (spec_index : nat) (ds : list spec_doc) (d : spec_doc) :
  SpanTagChecksLoader.span_component span = Done (Leaf (VStr component)) →
  component ≠ "" →
  SpanTagChecksLoader.integration_specs self !! component = Some specs →
  pd_get "name" span = Some (Leaf (VStr span_name)) →
  match specs !! span_name with
  | Some i => spec_index = i
  | None => specs !! (component +:+ ".*") = Some spec_index
  end →
  read_file fs (IntegrationPath (component +:+ "-spec.json")) = Some (JArray ds) →
  ds !! spec_index = Some d →
  match SpanTagChecksLoader.find_span_tag_check self fs LANGUAGE span with
  | Done found =>
      SpanTagChecksLoader.integration_span_check found
      = Some (SpanTagChecksLoader.make_checks d)
  | Raised e =>
      ∃ span_type,
        doc_type d = Some span_type ∧ span_type ∈ TESTED_SPAN_TYPES ∧
        SpanTagChecksLoader.load_type_check fs LANGUAGE span_type = Raised e
  end.
Proof.
  intros Hc Hne Hspecs Hname Hidx Hfile Hd.
  unfold SpanTagChecksLoader.find_span_tag_check,
    SpanTagChecksLoader.find_integration.
  rewrite Hc. apply String.eqb_neq in Hne. rewrite Hne, Hspecs, Hname.
  assert (SpanTagChecksLoader.find_spec_index specs component
            (Some (Leaf (VStr span_name))) = Done spec_index) as ->.
  { simpl. destruct (specs !! span_name); [by subst|by rewrite Hidx]. }
  unfold SpanTagChecksLoader.load_span_tag_check at 1.
  rewrite Hfile, Hd. simpl.
  destruct (doc_type d) as [span_type|]; simpl.
  - destruct (negb (String.eqb span_type "")
              && bool_decide (span_type ∈ TESTED_SPAN_TYPES)) eqn:Htested.
    + apply andb_true_iff in Htested as [_ Hin%bool_decide_eq_true].
      destruct (SpanTagChecksLoader.load_type_check fs LANGUAGE span_type)
        eqn:Hload; simpl.
      * by destruct (pd_get "type" span) as [[[]|]|].
      * eauto.
    + simpl. by destruct (pd_get "type" span) as [[[]|]|].
  - by destruct (pd_get "type" span) as [[[]|]|].
Qed.

Example redis_loader_is_built :
  SpanTagChecksLoader.__init__ redis_fs = Done redis_loader.
Proof. vm_compute. reflexivity. Qed.

Lemma find_span_tag_check_wildcard_fallback_witness :
  match SpanTagChecksLoader.find_span_tag_check redis_loader redis_fs "default"
          redis_unusual_span with
  | Done found =>
      SpanTagChecksLoader.integration_span_check found
      = Some (SpanTagChecksLoader.make_checks redis_default_doc)
  | Raised e =>
      ∃ span_type,
        doc_type redis_default_doc = Some span_type ∧
        span_type ∈ TESTED_SPAN_TYPES ∧
        SpanTagChecksLoader.load_type_check redis_fs "default" span_type
        = Raised e
  end.
Proof.
  apply (find_span_tag_check_wildcard_fallback redis_loader redis_fs "default"
           redis_unusual_span "redis" "redis.unusual"
           (<["redis.command" := 0]> {["redis.*" := 1]}) 1
           [redis_command_doc; redis_default_doc] redis_default_doc).
  - reflexivity.
  - discriminate.
  - vm_compute. reflexivity.
  - reflexivity.
  - vm_compute. reflexivity.
  - vm_compute. reflexivity.
  - reflexivity.
Defined.

(** A span whose component is not in the index, and that has no type, is
    given no check and no error. *)
Lemma unknown_component_not_applicable (self : SpanTagChecksLoader.t)
  (fs : filesystem) (LANGUAGE : string) (span : pydict) (component : string) :
  SpanTagChecksLoader.span_component span = Done (Leaf (VStr component)) →
  SpanTagChecksLoader.integration_specs self !! component = None →
  pd_get "type" span = None →
  SpanTagChecksLoader.find_span_tag_check self fs LANGUAGE span
  = Done {| SpanTagChecksLoader.integration_span_check := None;
            SpanTagChecksLoader.type_span_check := None |}.
Proof.
  intros Hc Hspecs Htype.
  unfold SpanTagChecksLoader.find_span_tag_check,
    SpanTagChecksLoader.find_integration.
  rewrite Hc, Hspecs, Htype. by destruct (String.eqb component "").
Qed.

(** C7, at the span ["redis.unusual"] of component ["redis"] with an index
    that has no entry for the name and none for ["redis.*"]: the lookup does
    not return without the integration layer, it raises [KeyError]. *)
Theorem find_span_tag_check_without_wildcard_raises :
  SpanTagChecksLoader.__init__ redis_fs_no_wildcard
  = Done {| SpanTagChecksLoader.integration_specs :=
              {["redis" := {["redis.command" := 0]}]} |}
  ∧ SpanTagChecksLoader.find_span_tag_check
      {| SpanTagChecksLoader.integration_specs :=
           {["redis" := {["redis.command" := 0]}]} |}
      redis_fs_no_wildcard "default" redis_unusual_span
    = Raised (KeyError "redis.*").
Proof. split; vm_compute; reflexivity. Qed.

(** ** Reasoning about methods *)

Section preserves.
Context {S : Type} (P : S → Prop).

Lemma preserves_ret {A : Type} (a : A) : preserves P (ret a).
Proof. by intros s. Qed.

Lemma preserves_raise {A : Type} (e : exn) : preserves P (raise (A := A) e).
Proof. by intros s. Qed.

Lemma preserves_get : preserves P get.
Proof. by intros s. Qed.

Lemma preserves_modify (f : S → S) :
  (∀ s, P s → P (f s)) → preserves P (modify f).
Proof. intros Hf s. apply Hf. Qed.

Lemma preserves_bind {A B : Type} (m : M S A) (f : A → M S B) :
  preserves P m → (∀ a, preserves P (f a)) → preserves P (bind m f).
Proof.
  intros Hm Hf s Hs. unfold bind. specialize (Hm s Hs).
  destruct (m s) as [[a|e] s']; simpl in *; [by apply Hf|done].
Qed.

Lemma preserves_when (b : bool) (m : M S unit) :
  preserves P m → preserves P (when b m).
Proof. destruct b; [done|]. intros _. apply preserves_ret. Qed.

Lemma preserves_getitem (d : pydict) (key : string) :
  preserves P (getitem d key).
Proof.
  unfold getitem. destruct (pd_get key d);
    [apply preserves_ret|apply preserves_raise].
Qed.

Lemma preserves_for_each {A : Type} (f : A → M S unit) (l : list A) :
  (∀ x, x ∈ l → preserves P (f x)) → preserves P (for_each f l).
Proof.
  induction l as [|x l IH]; intros Hf; simpl.
  - apply preserves_ret.
  - apply preserves_bind.
    + apply Hf. by left.
    + intros _. apply IH. intros y Hy. apply Hf. by right.
Qed.
End preserves.

(** A loop over [l1 ++ l2] that gets through [l1] goes on with [l2]. *)
Lemma for_each_app {S A : Type} (f : A → M S unit) (l1 l2 : list A) (s : S) :
  for_each f (l1 ++ l2)%list s =
  match for_each f l1 s with
  | (Done _, s') => for_each f l2 s'
  | (Raised e, s') => (Raised e, s')
  end.
Proof.
  revert s. induction l1 as [|x l1 IH]; intros s; simpl; [done|].
  unfold bind. destruct (f x s) as [[[]|e] s']; [apply IH|done].
Qed.

(** The first iteration that raises ends the loop: what follows is not run. *)
Lemma for_each_raised {S A : Type} (f : A → M S unit) (x : A) (rest : list A)
  (s s' : S) (e : exn) :
  f x s = (Raised e, s') → for_each f (x :: rest) s = (Raised e, s').
Proof. intros H. simpl. unfold bind. by rewrite H. Qed.

(** ** Attributes of the validator that its passes do not touch *)

Module ValidatorFrame.
Import SpanTagValidator.

Lemma del_framed f tag : preserves (framed f) (del tag).
Proof. by apply preserves_modify. Qed.

Lemma assertion_failure_framed f msg :
  preserves (framed f) (assertion_failure msg).
Proof.
  apply preserves_bind; [apply preserves_get|intros self].
  apply preserves_bind; [apply preserves_getitem|intros n].
  apply preserves_raise.
Qed.

Lemma match_tag_framed f rules e : preserves (framed f) (match_tag rules e).
Proof.
  destruct e as [e_k e_v]. apply preserves_bind; [apply preserves_get|].
  intros self. destruct (_tags self !! e_k).
  - destruct (py_eq _ _); [apply del_framed|apply assertion_failure_framed].
  - apply assertion_failure_framed.
Qed.

Lemma require_tag_framed f rules tag :
  preserves (framed f) (require_tag rules tag).
Proof.
  apply preserves_bind; [apply preserves_get|].
  intros self. destruct (_tags self !! tag).
  - apply preserves_when, del_framed.
  - apply assertion_failure_framed.
Qed.

Lemma optional_tag_framed f tag : preserves (framed f) (optional_tag tag).
Proof.
  apply preserves_bind; [apply preserves_get|].
  intros self. apply preserves_when, del_framed.
Qed.

Lemma validate_layer_framed f rules :
  preserves (framed f) (validate_layer rules).
Proof.
  apply preserves_bind; [by apply preserves_modify|intros _].
  apply preserves_bind.
  { unfold span_matching_tag_validator. destruct (_tag_comparisons rules).
    - apply preserves_ret.
    - apply preserves_for_each. intros; apply match_tag_framed. }
  intros _. apply preserves_bind.
  { unfold span_required_tag_validator. destruct (_required_tags rules).
    - apply preserves_ret.
    - apply preserves_for_each. intros; apply require_tag_framed. }
  intros _. unfold span_optional_tag_validator.
  destruct (_optional_tags rules).
  - apply preserves_ret.
  - apply preserves_for_each. intros; apply optional_tag_framed.
Qed.

(** What [validate] leaves in the attributes it sets before the layers
    run, for a span that has the fields it reads. *)
Lemma validate_frame (G : general_rules) (sp : pydict) (error type : pyval)
  (self : t) :
  pd_get "error" sp = Some error →
  pd_get "type" sp = Some type →
  frame (validate G sp self).2 =
  (type_span_rules_exist self,
   keep_component_tag_for_later_match self,
   (if truthy type && negb (type_span_rules_exist self) then false
    else validate_all_tags self),
   (if truthy error
    then list_insert_at 1 (ERROR_SPAN_RULES G) (span_tag_rules_list self)
    else span_tag_rules_list self),
   sp).
Proof.
  intros Herror Htype. unfold validate, bind at 1 2 3 4. simpl.
  unfold getitem at 1. rewrite Herror. simpl.
  set (f := (_, _, _, _, sp)).
  assert (∀ s, framed f s →
            framed f ((for_each validate_layer (span_tag_rules_list s) ;;
                       modify (set_tag_rules (last (span_tag_rules_list self)))) s).2)
    as Hloop.
  { intros s. apply preserves_bind; [|intros _; by apply preserves_modify].
    apply preserves_for_each. intros; apply validate_layer_framed. }
  unfold f. destruct (truthy error); simpl;
    unfold bind at 1; simpl; unfold getitem at 1; rewrite Htype; simpl;
    destruct (truthy type && negb (type_span_rules_exist self)); simpl;
    unfold bind at 1; simpl; unfold bind at 1; simpl;
    by apply Hloop.
Qed.
End ValidatorFrame.

(** ** The order of the layers *)

(** C10, as written, fails where a first-in-chunk check is supplied: it is
    the third check of the plan, after the internal one, and the check right
    after the general one is the internal one. *)
Lemma first_in_chunk_follows_internal :
  SpanTagValidationCheck.span_tags_checks
    <$> (match SpanTagValidationCheck.__init__ base_fs "default" chunk_root_span
                 None None
                 (Some (SpanTagChecksLoader.make_checks first_in_chunk_doc)) with
         | Done self => Some self
         | Raised _ => None
         end)
  = Some [SpanTagChecksLoader.make_checks general_doc;
          SpanTagChecksLoader.make_checks internal_doc;
          SpanTagChecksLoader.make_checks first_in_chunk_doc]
  ∧ [SpanTagChecksLoader.make_checks general_doc;
     SpanTagChecksLoader.make_checks internal_doc;
     SpanTagChecksLoader.make_checks first_in_chunk_doc] !! 1
    ≠ Some (SpanTagChecksLoader.make_checks first_in_chunk_doc).
Proof. split; [vm_compute; reflexivity|discriminate]. Qed.

(** C10, amended: the plan starts with the general layer; the error layer,
    when the span's error indicator asks for it, is at position 1; the
    internal layer follows; a first-in-chunk layer comes after the internal
    layer, then the type layer and the integration layers.  The validation
    check builds the plan in [__init__] from the loaded base specifications,
    the validator builds it in [__init__] and inserts the error layer in
    [validate]. *)
Theorem layer_plan_order
  (fs : filesystem) (LANGUAGE : string) (span : pydict)
  (type_span_check integration_span_check first_in_chunk_span_check
     : option SpanTagChecks.t)
  (self : SpanTagValidationCheck.t)
  (G : general_rules) (sp : pydict) (error type : pyval)
  (type_span_rules integration_base_span_rules integration_root_span_rules
     first_in_chunk_span_rules : option SpanTagRules) :
  SpanTagValidationCheck.__init__ fs LANGUAGE span type_span_check
    integration_span_check first_in_chunk_span_check = Done self →
  pd_get "error" sp = Some error →
  pd_get "type" sp = Some type →
  (∃ general err internal,
     let language := default (Leaf (VStr LANGUAGE)) (pd_get "language" span) in
     SpanTagChecksLoader.load_span_tag_check fs
       (DdtracePath language "general-spec.json") None = Done general ∧
     SpanTagChecksLoader.load_span_tag_check fs
       (DdtracePath language "error-spec.json") None = Done err ∧
     SpanTagChecksLoader.load_span_tag_check fs
       (DdtracePath language "internal-spec.json") None = Done internal ∧
     SpanTagValidationCheck.span_tags_checks self =
     (general
       :: (if SpanTagValidationCheck.error_is_one span then [err] else [])
       ++ internal
       :: SpanTagValidationCheck.opt_list first_in_chunk_span_check
       ++ SpanTagValidationCheck.opt_list type_span_check
       ++ SpanTagValidationCheck.opt_list integration_span_check)%list)
  ∧ SpanTagValidator.span_tag_rules_list
      (SpanTagValidator.validate G sp
         (SpanTagValidator.__init__ G type_span_rules integration_base_span_rules
            integration_root_span_rules first_in_chunk_span_rules)).2 =
    (GENERAL_SPAN_RULES G
      :: (if truthy error then [ERROR_SPAN_RULES G] else [])
      ++ INTERNAL_SPAN_RULES G
      :: SpanTagValidator.opt_list first_in_chunk_span_rules
      ++ SpanTagValidator.opt_list type_span_rules
      ++ SpanTagValidator.opt_list integration_base_span_rules
      ++ SpanTagValidator.opt_list integration_root_span_rules)%list.
Proof.
  intros Hinit Herror Htype. split.
  - unfold SpanTagValidationCheck.__init__ in Hinit.
    destruct (SpanTagChecksLoader.load_span_tag_check fs
                (DdtracePath _ "general-spec.json") None) as [general|] eqn:Hg; [|done].
    destruct (SpanTagChecksLoader.load_span_tag_check fs
                (DdtracePath _ "error-spec.json") None) as [err|] eqn:He; [|done].
    destruct (SpanTagChecksLoader.load_span_tag_check fs
                (DdtracePath _ "internal-spec.json") None) as [internal|] eqn:Hi; [|done].
    destruct (match integration_span_check with
              | Some _ => SpanTagValidationCheck.validate_all_for span
              | None => Done false
              end); [|done].
    injection Hinit as <-. exists general, err, internal. simpl.
    do 3 (split; [done|]).
    by destruct (SpanTagValidationCheck.error_is_one span).
  - pose proof (ValidatorFrame.validate_frame G sp error type
                  (SpanTagValidator.__init__ G type_span_rules
                     integration_base_span_rules integration_root_span_rules
                     first_in_chunk_span_rules) Herror Htype) as Hframe.
    unfold frame in Hframe.
    injection Hframe as _ _ _ -> _.
    by destruct (truthy error).
Qed.

(** ** Keeping the [component] tag *)

(** C1, as written, fails at the root layer: with an integration-base and
    an integration-root layer that both require [component], the run
    completes and [component] is still in the working set, after the
    required pass of the root layer as after the whole run. *)
Lemma component_not_dropped_by_root :
  let run := SpanTagValidator.validate redis_general_rules redis_command_span
               redis_validator in
  let before_root :=
    (modify (SpanTagValidator.set_span redis_command_span) ;;
     modify (λ self, SpanTagValidator.set_tags
               (SpanTagValidator.extract_tags false redis_command_span ∅) self) ;;
     for_each SpanTagValidator.validate_layer
       [GENERAL_SPAN_RULES redis_general_rules;
        INTERNAL_SPAN_RULES redis_general_rules; redis_base_rules])
      redis_validator in
  run.1 = Done tt
  ∧ SpanTagValidator._tags run.2 !! "component" = Some (VStr "redis")
  ∧ before_root.1 = Done tt
  ∧ SpanTagValidator._tags before_root.2 !! "component" = Some (VStr "redis")
  ∧ SpanTagValidator._tags
      (SpanTagValidator.span_required_tag_validator redis_root_rules
         before_root.2).2 !! "component" = Some (VStr "redis").
Proof. vm_compute. repeat split; reflexivity. Qed.

Lemma require_tag_keeps_component (rules : SpanTagRules) (tag_name : string)
  (v : leaf) :
  preserves
    (λ s, SpanTagValidator._tags s !! "component" = Some v
          ∧ SpanTagValidator.keep_component_tag_for_later_match s = true)
    (SpanTagValidator.require_tag rules tag_name).
Proof.
  intros s [Hc Hkeep]. unfold SpanTagValidator.require_tag, bind, get.
  destruct (SpanTagValidator._tags s !! tag_name) eqn:Htag.
  - rewrite Hkeep, orb_false_r. case_bool_decide as Hne; simpl; [|done].
    by rewrite lookup_delete_ne.
  - unfold SpanTagValidator.assertion_failure, bind, get, getitem.
    by destruct (pd_get "name" (SpanTagValidator.span s)).
Qed.

(** C1, amended: in a run of a validator built with an integration-base
    layer, the required pass of a layer, the base layer and the root layer
    alike, leaves [component] in the working set and leaves the retention
    flag set; [component] is dropped by a match pass that compares it with
    the value it has. *)
Theorem required_pass_keeps_component
  (G : general_rules)
  (type_span_rules integration_root_span_rules first_in_chunk_span_rules
     : option SpanTagRules)
  (integration_base_span_rules rules : SpanTagRules)
  (s : SpanTagValidator.t) (v : leaf) :
  SpanTagValidator.keep_component_tag_for_later_match s =
  SpanTagValidator.keep_component_tag_for_later_match
    (SpanTagValidator.__init__ G type_span_rules
       (Some integration_base_span_rules) integration_root_span_rules
       first_in_chunk_span_rules) →
  SpanTagValidator._tags s !! "component" = Some v →
  (let s' := (SpanTagValidator.span_required_tag_validator rules s).2 in
   SpanTagValidator._tags s' !! "component" = Some v
   ∧ SpanTagValidator.keep_component_tag_for_later_match s' = true)
  ∧ (∀ e_v : pyval,
       py_eq v e_v = true →
       SpanTagValidator.match_tag rules ("component", e_v) s
       = (Done tt,
          SpanTagValidator.set_tags
            (delete "component" (SpanTagValidator._tags s)) s)).
Proof.
  simpl. intros Hkeep Hc. split.
  - unfold SpanTagValidator.span_required_tag_validator.
    destruct (_required_tags rules) as [|tag_name rest] eqn:Hreq; [done|].
    apply (preserves_for_each
             (λ s, SpanTagValidator._tags s !! "component" = Some v
                   ∧ SpanTagValidator.keep_component_tag_for_later_match s
                     = true)); [|done].
    intros; apply require_tag_keeps_component.
  - intros e_v Heq. unfold SpanTagValidator.match_tag, bind, get.
    by rewrite Hc, Heq.
Qed.

(** ** What a rule records *)

Lemma record_nothing (flattened : gmap string leaf) (s : check_state) :
  unpack_initial s = flattened → record_failures flattened [] s = s.
Proof.
  intros <-. destruct s. unfold record_failures. simpl. by rewrite app_nil_r.
Qed.

Lemma record_no_failure (s : check_state) :
  record_failures (unpack_initial s) [] s = s.
Proof. by apply record_nothing. Qed.

Lemma check_val_type_eq (rule : TagCheck.t) (flattened : gmap string leaf)
  (v : leaf) (s : check_state) :
  flattened !! TagCheck.name rule = Some v →
  match TagCheck.val_type rule with
  | Some ty =>
      when (val_type_set (Some ty)) (TagCheck.check_val_type rule flattened ty)
  | None => ret tt
  end s
  = (result_of (unknown_type (TagCheck.val_type rule)),
     record_failures (unpack_initial s)
       (type_violation (TagCheck.name rule) (TagCheck.val_type rule) v) s).
Proof.
  intros Htag. unfold unknown_type, type_violation.
  destruct (TagCheck.val_type rule) as [ty|];
    [|by rewrite record_no_failure].
  destruct (val_type_set (Some ty)); simpl;
    [|destruct (string_to_type_map !! ty); simpl; by rewrite record_no_failure].
  unfold TagCheck.check_val_type, TagCheck.flattened_getitem, bind.
  rewrite Htag. simpl.
  destruct (string_to_type_map !! ty) as [expected|] eqn:Hty; simpl.
  - case_bool_decide; simpl; [done|by rewrite record_no_failure].
  - by rewrite record_no_failure.
Qed.

Lemma TagCheck_check_eq (rule : TagCheck.t) (span : pydict)
  (span_name : pyval) (check_name : string) (s : check_state) :
  pd_get "name" span = Some span_name →
  let flattened := unpack span (unpack_initial s) in
  TagCheck.check rule span check_name s
  = (result_of (rule_exception flattened rule),
     record_failures flattened
       (violations flattened span_name check_name rule) s).
Proof.
  intros Hname. cbv zeta.
  unfold TagCheck.check, bind at 1, unpack_default.
  generalize (unpack span (unpack_initial s)). intros flattened.
  set (s1 := {| unpack_initial := flattened; _tags := _tags s;
                failures := failures s |}).
  assert (∀ msgs, record_failures flattened msgs s
                  = record_failures (unpack_initial s1) msgs s1) as Hrec by done.
  rewrite Hrec.
  unfold violations, rule_exception.
  destruct (flattened !! TagCheck.name rule) as [v|] eqn:Htag.
  - destruct (TagCheck.required rule), (truthy (TagCheck.value rule)); simpl.
    + unfold bind, getitem. rewrite Hname. simpl.
      unfold TagCheck.flattened_getitem. rewrite Htag. simpl.
      destruct (py_eq v (TagCheck.value rule)); simpl;
        [by rewrite record_nothing|done].
    + unfold bind at 1, getitem. rewrite Hname. simpl.
      unfold bind at 1. simpl. by apply check_val_type_eq.
    + unfold bind at 1.
      pose proof (check_val_type_eq rule flattened v s1 Htag) as Hvt.
      simpl in Hvt. rewrite Hvt.
      destruct (unknown_type (TagCheck.val_type rule)); simpl; [done|].
      unfold bind, getitem. by rewrite Hname.
    + unfold bind at 1.
      pose proof (check_val_type_eq rule flattened v s1 Htag) as Hvt.
      simpl in Hvt. rewrite Hvt.
      destruct (unknown_type (TagCheck.val_type rule)); simpl; [done|].
      unfold bind, getitem. by rewrite Hname.
  - destruct (TagCheck.required rule), (truthy (TagCheck.value rule)); simpl;
      unfold bind, getitem; rewrite Hname; simpl;
      unfold TagCheck.flattened_getitem; rewrite ?Htag; simpl;
      rewrite ?record_nothing by done; try done.
    destruct (TagCheck.val_type rule) as [ty|]; simpl; [|done].
    destruct (negb (String.eqb ty "")); simpl; [|done].
    unfold TagCheck.check_val_type, TagCheck.flattened_getitem, bind.
    by rewrite Htag.
Qed.

(** ** What a layer and a plan record *)

Lemma check_tag_eq (self : SpanTagChecks.t) (span : pydict) (span_name : pyval)
  (rule : TagCheck.t) (s : check_state) :
  pd_get "name" span = Some span_name →
  let flattened := unpack span (unpack_initial s) in
  let recorded :=
    record_failures flattened
      (violations flattened span_name (SpanTagChecks.name self) rule) s in
  SpanTagChecks.check_tag self span rule s
  = match rule_exception flattened rule with
    | Some e => (Raised e, recorded)
    | None => (Done tt, consume (TagCheck.name rule) recorded)
    end.
Proof.
  intros Hname. cbv zeta. unfold SpanTagChecks.check_tag, bind at 1.
  rewrite (TagCheck_check_eq _ _ span_name) by done.
  destruct (rule_exception _ rule); simpl; [done|].
  unfold bind, get, when, del_tag, modify, ret. simpl.
  case_bool_decide as Htag; [done|].
  unfold consume. simpl. rewrite delete_id; [done|].
  by apply eq_None_not_Some.
Qed.

Lemma layer_checks_eq (self : SpanTagChecks.t) (span : pydict)
  (span_name : pyval) (flattened : gmap string leaf) (rules : list TagCheck.t) :
  pd_get "name" span = Some span_name →
  unpack span flattened = flattened →
  Forall (λ rule, rule_exception flattened rule = None) rules →
  ∀ s, unpack span (unpack_initial s) = flattened →
    ∃ s',
      for_each (SpanTagChecks.check_tag self span) rules s = (Done tt, s')
      ∧ unpack span (unpack_initial s') = flattened
      ∧ _tags s' = foldl (λ m rule, delete (TagCheck.name rule) m) (_tags s) rules
      ∧ failures s'
        = (failures s
           ++ flat_map (violations flattened span_name (SpanTagChecks.name self))
                rules)%list.
Proof.
  intros Hname Hfix Hsafe. induction Hsafe as [|rule rules Hrule _ IH];
    intros s Hs; simpl.
  - exists s. by rewrite app_nil_r.
  - unfold bind. rewrite (check_tag_eq _ _ span_name) by done.
    rewrite Hs, Hrule.
    destruct (IH (consume (TagCheck.name rule)
                    (record_failures flattened
                       (violations flattened span_name
                          (SpanTagChecks.name self) rule) s)) Hfix)
      as (s' & H1 & H2 & H3 & H4).
    exists s'. simpl in *. by rewrite H1, H3, H4, app_assoc.
Qed.

Lemma SpanTagChecks_check_eq (self : SpanTagChecks.t) (span : pydict)
  (span_name : pyval) (s : check_state) :
  pd_get "name" span = Some span_name →
  SpanTagChecks.check self span s
  = for_each (SpanTagChecks.check_tag self span) (SpanTagChecks.tag_checks self) s.
Proof.
  intros Hname. unfold SpanTagChecks.check, bind, getitem. by rewrite Hname.
Qed.

Lemma plan_checks_eq (span : pydict) (span_name : pyval)
  (flattened : gmap string leaf) (plan : list SpanTagChecks.t) :
  pd_get "name" span = Some span_name →
  unpack span flattened = flattened →
  Forall (layer_safe flattened) plan →
  ∀ s, unpack span (unpack_initial s) = flattened →
    ∃ s',
      for_each (λ layer, SpanTagChecks.check layer span) plan s = (Done tt, s')
      ∧ unpack span (unpack_initial s') = flattened
      ∧ _tags s' = plan_leftover (_tags s) plan
      ∧ failures s'
        = (failures s ++ plan_violations flattened span_name plan)%list.
Proof.
  intros Hname Hfix Hsafe. induction Hsafe as [|layer plan Hlayer _ IH];
    intros s Hs; simpl.
  - exists s. by rewrite app_nil_r.
  - unfold bind.
    rewrite (SpanTagChecks_check_eq layer span span_name s Hname).
    destruct (layer_checks_eq layer span span_name flattened
                (SpanTagChecks.tag_checks layer) Hname Hfix Hlayer s Hs)
      as (s1 & H1 & H2 & H3 & H4).
    rewrite H1.
    destruct (IH s1 H2) as (s' & K1 & K2 & K3 & K4).
    exists s'. split_and!; [done|done|by rewrite K3, H3|].
    rewrite K4, H4. unfold layer_violations. by rewrite app_assoc.
Qed.

(** ** Rules with an expected value *)

(** C3, as written, fails on a value that differs: the rule expects
    [span.kind] to be ["client"], the span has ["server"]; the failure is
    recorded and the tag is removed from the working set all the same. *)
Lemma mismatched_tag_is_removed :
  let s := {| unpack_initial := ∅; _tags := extract_tags server_span ∅;
              failures := [] |} in
  let run := SpanTagChecks.check_tag http_layer server_span kind_rule s in
  _tags s !! "span.kind" = Some (VStr "server")
  ∧ run.1 = Done tt
  ∧ failures run.2
    = [MATCHING_TAG_ERROR "span.kind" (Leaf (VStr "client"))
         (Leaf (VStr "web.request")) "http"]
  ∧ _tags run.2 !! "span.kind" = None.
Proof. vm_compute. repeat split; reflexivity. Qed.

(** C3, amended: for a rule with an expected value, [SpanTagChecks.check]
    removes the rule's tag from the working set after the check whenever the
    flattened span has the tag: without a failure when the value is the
    expected one, with a recorded failure when it differs.  When the
    flattened span does not have the tag, the failure is recorded and the
    working set is left as it is.  In [SpanTagValidator] a comparison that
    holds removes the tag; one that fails, for a missing tag or another
    value, raises and leaves the working set as it is. *)
Theorem expected_value_rule
  (self : SpanTagChecks.t) (span : pydict) (rule : TagCheck.t)
  (span_name : pyval) (s : check_state)
  (rules : SpanTagRules) (e_k : string) (e_v : pyval) (v : SpanTagValidator.t) :
  pd_get "name" span = Some span_name →
  TagCheck.required rule = true →
  truthy (TagCheck.value rule) = true →
  (let flattened := unpack span (unpack_initial s) in
   let run := SpanTagChecks.check_tag self span rule s in
   match flattened !! TagCheck.name rule with
   | Some actual =>
       run.1 = Done tt
       ∧ _tags run.2 = delete (TagCheck.name rule) (_tags s)
       ∧ failures run.2
         = (failures s
            ++ if py_eq actual (TagCheck.value rule) then []
               else [MATCHING_TAG_ERROR (TagCheck.name rule)
                       (TagCheck.value rule) span_name
                       (SpanTagChecks.name self)])%list
   | None =>
       _tags run.2 = _tags s
       ∧ failures run.2
         = (failures s
            ++ [REQUIRED_TAG_ERROR (TagCheck.name rule) span_name
                  (SpanTagChecks.name self)])%list
   end)
  ∧ (let run := SpanTagValidator.match_tag rules (e_k, e_v) v in
     match SpanTagValidator._tags v !! e_k with
     | Some actual =>
         if py_eq actual e_v
         then run = (Done tt,
                     SpanTagValidator.set_tags
                       (delete e_k (SpanTagValidator._tags v)) v)
         else ∃ e, run = (Raised e, v)
     | None => ∃ e, run = (Raised e, v)
     end).
Proof.
  intros Hname Hreq Hvalue. split.
  - cbv zeta. rewrite (check_tag_eq _ _ span_name) by done.
    unfold rule_exception, violations. rewrite Hreq, Hvalue. simpl.
    by destruct (unpack span (unpack_initial s) !! TagCheck.name rule).
  - cbv zeta. unfold SpanTagValidator.match_tag, bind, get.
    assert (∀ msg, ∃ e, SpanTagValidator.assertion_failure msg v = (Raised e, v))
      as Hfail.
    { intros msg. unfold SpanTagValidator.assertion_failure, bind, get, getitem.
      destruct (pd_get "name" (SpanTagValidator.span v)); simpl; eauto. }
    destruct (SpanTagValidator._tags v !! e_k) as [actual|]; [|apply Hfail].
    destruct (py_eq actual e_v); [done|apply Hfail].
Qed.

(** ** Violations: collected by the check, raised by the validator *)

(** C2, as written, fails in [SpanTagValidator]: the span has neither
    [component] nor [redis.raw_command]; the missing [component] is raised
    as an [AssertionError] out of [validate] while the base layer is the
    current one, and the root layer, whose [redis.raw_command] is missing
    too, is not evaluated. *)
Lemma missing_tag_is_raised_by_validator :
  let run := SpanTagValidator.validate redis_general_rules redis_get_span
               redis_validator in
  match run.1 with
  | Raised (AssertionError (TAG_MISSING_ASSERTION _ layer tag _)) =>
      layer = "redis" ∧ tag = "component"
  | _ => False
  end
  ∧ rules_name <$> SpanTagValidator.tag_rules run.2 = Some "redis"
  ∧ rules_name <$> last (SpanTagValidator.span_tag_rules_list run.2)
    = Some "redis-root".
Proof. vm_compute. repeat split; reflexivity. Qed.

Lemma comparison_violated_weaken (tags1 tags2 : gmap string leaf)
  (e : string * pyval) :
  tags1 ⊆ tags2 → comparison_violated tags2 e → comparison_violated tags1 e.
Proof.
  intros Hsub. unfold comparison_violated.
  destruct (tags1 !! e.1) as [v|] eqn:Hv; [|done].
  by rewrite (lookup_weaken _ _ _ _ Hv Hsub).
Qed.

Lemma reports_violation_weaken (span_name : pyval) (layer : string)
  (comparisons1 comparisons2 : list (string * pyval))
  (required1 required2 : list string) (tags1 tags2 : gmap string leaf)
  (msg : message) :
  (∀ e, e ∈ comparisons1 → e ∈ comparisons2) →
  (∀ tag, tag ∈ required1 → tag ∈ required2) →
  tags1 ⊆ tags2 →
  reports_violation span_name layer comparisons1 required1 tags1 msg →
  reports_violation span_name layer comparisons2 required2 tags2 msg.
Proof.
  intros Hcmp Hreq Hsub. destruct msg; simpl; try done.
  - intros (-> & -> & Hnotin & Hkeys & Hasked). split_and!; try done.
    + etrans; [exact Hkeys|]. by apply subseteq_dom.
    + destruct Hasked as [Hin|Hin]; [left|right; by apply Hreq].
      apply list_elem_of_fmap in Hin as (e & -> & Hin).
      apply list_elem_of_fmap. exists e. split; [done|by apply Hcmp].
  - intros (-> & -> & Hin & Hactual & Hne). split_and!; try done.
    + by apply Hcmp.
    + by apply (lookup_weaken _ _ _ _ Hactual Hsub).
Qed.

(** The match pass on a span that has a name: it returns when every
    comparison holds on the working set it started with, and raises an
    [AssertionError] that reports a violated comparison otherwise. *)
Lemma match_tags_run (rules : SpanTagRules) (span_name : pyval)
  (comparisons : list (string * pyval)) :
  ∀ self : SpanTagValidator.t,
    pd_get "name" (SpanTagValidator.span self) = Some span_name →
    ∃ r self',
      for_each (SpanTagValidator.match_tag rules) comparisons self = (r, self')
      ∧ SpanTagValidator._tags self' ⊆ SpanTagValidator._tags self
      ∧ SpanTagValidator.span self' = SpanTagValidator.span self
      ∧ SpanTagValidator.tag_rules self' = SpanTagValidator.tag_rules self
      ∧ match r with
        | Done _ =>
            Forall (λ e, ¬ comparison_violated (SpanTagValidator._tags self) e)
              comparisons
        | Raised e =>
            ∃ msg, e = AssertionError msg
                   ∧ reports_violation span_name (rules_name rules) comparisons
                       [] (SpanTagValidator._tags self) msg
        end.
Proof.
  induction comparisons as [|[e_k e_v] comparisons IH]; intros self Hname; simpl.
  - exists (Done tt), self. by split_and!.
  - unfold bind at 1, SpanTagValidator.match_tag, bind at 1, get.
    destruct (SpanTagValidator._tags self !! e_k) as [v|] eqn:Hv.
    + destruct (py_eq v e_v) eqn:Heq.
      * unfold SpanTagValidator.del, modify.
        destruct (IH (SpanTagValidator.set_tags
                        (delete e_k (SpanTagValidator._tags self)) self) Hname)
          as (r & self' & Hrun & Hsub & Hspan & Hrules & Hr).
        simpl in Hsub, Hspan, Hrules.
        assert (delete e_k (SpanTagValidator._tags self)
                ⊆ SpanTagValidator._tags self) as Hdel by apply delete_subseteq.
        exists r, self'. split_and!; try done.
        { by etrans. }
        destruct r as [[]|e].
        -- apply Forall_cons. split.
           ++ unfold comparison_violated. simpl. rewrite Hv. congruence.
           ++ eapply Forall_impl; [exact Hr|]. simpl. intros e Hnot Hviolated.
              apply Hnot. by apply (comparison_violated_weaken _ _ _ Hdel).
        -- destruct Hr as (msg & -> & Hmsg). exists msg. split; [done|].
           refine (reports_violation_weaken _ _ _ _ _ _ _ _ _ _ _ _ Hmsg); try done.
           intros e He. by right.
      * unfold SpanTagValidator.assertion_failure, bind, get, getitem.
        rewrite Hname. simpl.
        eexists _, _. split_and!; try done.
        eexists. split; [done|]. simpl. split_and!; try done. by left.
    + unfold SpanTagValidator.assertion_failure, bind, get, getitem.
      rewrite Hname. simpl.
      eexists _, _. split_and!; try done.
      eexists. split; [done|]. simpl. split_and!; try done.
      * by apply not_elem_of_dom.
      * left. by left.
Qed.

(** The required pass on a span that has a name: it returns when every
    required tag is in the working set it started with, and raises an
    [AssertionError] that reports a missing tag otherwise. *)
Lemma require_tags_run (rules : SpanTagRules) (span_name : pyval)
  (names : list string) :
  ∀ self : SpanTagValidator.t,
    pd_get "name" (SpanTagValidator.span self) = Some span_name →
    ∃ r self',
      for_each (SpanTagValidator.require_tag rules) names self = (r, self')
      ∧ SpanTagValidator._tags self' ⊆ SpanTagValidator._tags self
      ∧ SpanTagValidator.span self' = SpanTagValidator.span self
      ∧ SpanTagValidator.tag_rules self' = SpanTagValidator.tag_rules self
      ∧ match r with
        | Done _ =>
            Forall (λ tag, is_Some (SpanTagValidator._tags self !! tag)) names
        | Raised e =>
            ∃ msg, e = AssertionError msg
                   ∧ reports_violation span_name (rules_name rules) [] names
                       (SpanTagValidator._tags self) msg
        end.
Proof.
  induction names as [|tag names IH]; intros self Hname; simpl.
  - exists (Done tt), self. by split_and!.
  - unfold bind at 1, SpanTagValidator.require_tag, bind at 1, get.
    destruct (SpanTagValidator._tags self !! tag) as [v|] eqn:Hv.
    + set (self1 := (when (bool_decide (tag ≠ "component")
                           || negb (SpanTagValidator.keep_component_tag_for_later_match
                                      self))
                       (SpanTagValidator.del tag) self).2).
      assert (when (bool_decide (tag ≠ "component")
                    || negb (SpanTagValidator.keep_component_tag_for_later_match
                               self))
                (SpanTagValidator.del tag) self = (Done tt, self1)
              ∧ SpanTagValidator._tags self1 ⊆ SpanTagValidator._tags self
              ∧ SpanTagValidator.span self1 = SpanTagValidator.span self
              ∧ SpanTagValidator.tag_rules self1 = SpanTagValidator.tag_rules self)
        as (Hstep & Hsub1 & Hspan1 & Hrules1).
      { unfold self1.
        destruct (bool_decide (tag ≠ "component")
                  || negb (SpanTagValidator.keep_component_tag_for_later_match
                             self)); simpl; split_and!; try done.
        apply delete_subseteq. }
      rewrite Hstep.
      destruct (IH self1) as (r & self' & Hrun & Hsub & Hspan & Hrules & Hr);
        [by rewrite Hspan1|].
      exists r, self'. split_and!; try done.
      { by etrans. }
      { by rewrite Hspan. }
      { by rewrite Hrules. }
      destruct r as [[]|e].
      * apply Forall_cons. split; [by eexists|].
        eapply Forall_impl; [exact Hr|]. simpl. intros t [w Hw].
        exists w. by apply (lookup_weaken _ _ _ _ Hw Hsub1).
      * destruct Hr as (msg & -> & Hmsg). exists msg. split; [done|].
        refine (reports_violation_weaken _ _ _ _ _ _ _ _ _ _ _ _ Hmsg); try done.
        intros t Ht. by right.
    + unfold SpanTagValidator.assertion_failure, bind, get, getitem.
      rewrite Hname. simpl.
      eexists _, _. split_and!; try done.
      eexists. split; [done|]. simpl. split_and!; try done.
      * by apply not_elem_of_dom.
      * right. by left.
Qed.

(** A layer that the working set violates raises: the match pass at a
    comparison that does not hold, or else the required pass at a tag that
    is missing. *)
Lemma validate_layer_raises (rules : SpanTagRules) (span_name : pyval)
  (v : SpanTagValidator.t) :
  pd_get "name" (SpanTagValidator.span v) = Some span_name →
  layer_violated (SpanTagValidator._tags v) rules →
  ∃ msg v',
    SpanTagValidator.validate_layer rules v = (Raised (AssertionError msg), v')
    ∧ reports_violation span_name (rules_name rules) (_tag_comparisons rules)
        (_required_tags rules) (SpanTagValidator._tags v) msg
    ∧ SpanTagValidator.tag_rules v' = Some rules.
Proof.
  intros Hname Hviolated.
  unfold SpanTagValidator.validate_layer, bind at 1, modify.
  unfold SpanTagValidator.rules_validate, bind at 1.
  assert (SpanTagValidator.span_matching_tag_validator rules
          = for_each (SpanTagValidator.match_tag rules) (_tag_comparisons rules))
    as -> by (unfold SpanTagValidator.span_matching_tag_validator;
              by destruct (_tag_comparisons rules)).
  destruct (match_tags_run rules span_name (_tag_comparisons rules)
              (SpanTagValidator.set_tag_rules (Some rules) v) Hname)
    as (r & v1 & Hrun & Hsub & Hspan & Hrules & Hr).
  simpl in Hsub, Hspan, Hrules. rewrite Hrun.
  destruct r as [[]|e].
  - destruct Hviolated as [Hcmp|Hreq].
    { apply Exists_exists in Hcmp as (e & Hin & He).
      rewrite Forall_forall in Hr. by destruct (Hr e Hin). }
    unfold bind at 1.
    assert (SpanTagValidator.span_required_tag_validator rules
            = for_each (SpanTagValidator.require_tag rules) (_required_tags rules))
      as -> by (unfold SpanTagValidator.span_required_tag_validator;
                by destruct (_required_tags rules)).
    destruct (require_tags_run rules span_name (_required_tags rules) v1)
      as (r & v2 & Hrun2 & Hsub2 & Hspan2 & Hrules2 & Hr2);
      [by rewrite Hspan|].
    rewrite Hrun2. destruct r as [[]|e].
    + apply Exists_exists in Hreq as (tag & Hin & Hnone).
      rewrite Forall_forall in Hr2. destruct (Hr2 tag Hin) as [w Hw].
      by rewrite (lookup_weaken _ _ _ _ Hw Hsub) in Hnone.
    + destruct Hr2 as (msg & -> & Hmsg). exists msg, v2. split_and!; try done.
      * refine (reports_violation_weaken _ _ _ _ _ _ _ _ _ _ _ _ Hmsg); try done.
        intros e He. by apply elem_of_nil in He.
      * by rewrite Hrules2.
  - destruct Hr as (msg & -> & Hmsg). exists msg, v1. split_and!; try done.
    refine (reports_violation_weaken _ _ _ _ _ _ _ _ _ _ _ _ Hmsg); try done.
    intros t Ht. by apply elem_of_nil in Ht.
Qed.

(** C2, amended: in [SpanTagValidationCheck], when no rule makes
    [TagCheck.check] raise, that is every rule with an expected value or a
    declared type finds its tag when it is required and every declared type
    is a known one, the run raises nothing and evaluates every rule of every
    layer: it returns with the violations of all the rules, in plan order,
    recorded as failures, and with every rule's tag removed.  In
    [SpanTagValidator], on a span that has a name, a layer with a
    comparison whose tag is missing from the working set or has another
    value, or with a required tag that is missing, raises an
    [AssertionError] whose message reports such a tag of that layer; the
    loop over the plan ends there with that exception, the raising layer
    being the current one, whatever the layers after it are: they are not
    evaluated. *)
Theorem violations_are_collected
  (self : SpanTagValidationCheck.t) (span_name : pyval) (s : check_state)
  (before : list SpanTagRules) (rules : SpanTagRules) (rest : list SpanTagRules)
  (v0 v : SpanTagValidator.t) (validated_name : pyval) :
  pd_get "name" (SpanTagValidationCheck.span self) = Some span_name →
  SpanTagValidationCheck.span_tags_checks self ≠ [] →
  Forall (layer_safe (unpack (SpanTagValidationCheck.span self) (unpack_initial s)))
    (SpanTagValidationCheck.span_tags_checks self) →
  pd_get "name" (SpanTagValidator.span v) = Some validated_name →
  for_each SpanTagValidator.validate_layer before v0 = (Done tt, v) →
  layer_violated (SpanTagValidator._tags v) rules →
  (let flattened := unpack (SpanTagValidationCheck.span self) (unpack_initial s) in
   let plan := SpanTagValidationCheck.span_tags_checks self in
   ∃ o s',
     SpanTagValidationCheck.check self s = (Done o, s')
     ∧ _tags s' = plan_leftover (_tags s) plan
     ∧ failures s'
       = (failures s ++ plan_violations flattened span_name plan
          ++ closing_failure o span_name plan (_tags s'))%list)
  ∧ ∃ msg v',
      for_each SpanTagValidator.validate_layer (before ++ rules :: rest)%list v0
      = (Raised (AssertionError msg), v')
      ∧ reports_violation validated_name (rules_name rules)
          (_tag_comparisons rules) (_required_tags rules)
          (SpanTagValidator._tags v) msg
      ∧ SpanTagValidator.tag_rules v' = Some rules.
Proof.
  intros Hname Hplan Hsafe Hvname Hbefore Hviolated.
  split.
  2:{ destruct (validate_layer_raises rules validated_name v Hvname Hviolated)
        as (msg & v' & Hraised & Hmsg & Hcurrent).
      exists msg, v'. split_and!; try done.
      rewrite for_each_app, Hbefore. by apply for_each_raised. }
  cbv zeta. unfold SpanTagValidationCheck.check, bind at 1.
  destruct (plan_checks_eq (SpanTagValidationCheck.span self) span_name
              (unpack (SpanTagValidationCheck.span self) (unpack_initial s))
              (SpanTagValidationCheck.span_tags_checks self) Hname
              (unpack_idem _ _) Hsafe s eq_refl) as (s1 & H1 & _ & H3 & H4).
  rewrite H1. unfold bind at 1, get.
  destruct (last (SpanTagValidationCheck.span_tags_checks self)) as [layer|] eqn:Hlast;
    [|by apply last_None in Hlast].
  unfold closing_failure. rewrite Hlast.
  case_bool_decide.
  - destruct (SpanTagValidationCheck.validate_all_tags self).
    + unfold bind, getitem, fail, modify, ret. rewrite Hname. simpl.
      eexists _, _. split; [done|]. simpl. split; [done|].
      by rewrite H4, app_assoc.
    + exists SpanTagValidationCheck.tags_not_asserted_on, s1.
      by rewrite H4, app_nil_r.
  - exists SpanTagValidationCheck.validation_success, s1.
    by rewrite H4, app_nil_r.
Qed.

(** ** The verdict *)

(** C5: when a run completes, its verdict follows the failures the layers
    recorded and the tags they left.  With a recorded failure the verdict is
    FAIL.  Without one: FAIL when tags are left and [validate_all_tags] is
    set, and the report then holds one failure that lists the name of every
    tag left; WARN when tags are left and the flag is not set; PASS when no
    tag is left. *)
Theorem verdict_of_run
  (self : SpanTagValidationCheck.t) (shared shared' : gmap string leaf)
  (report : ValidationReport) :
  report_of self shared = (Done report, shared') →
  let layers :=
    for_each (λ layer, SpanTagChecks.check layer (SpanTagValidationCheck.span self))
      (SpanTagValidationCheck.span_tags_checks self) (start_state shared self) in
  layers.1 = Done tt
  ∧ report_leftover report = _tags layers.2
  ∧ match failures layers.2 with
    | _ :: _ =>
        report_verdict report = FAIL
        ∧ failures layers.2 `prefix_of` report_failures report
    | [] =>
        if bool_decide (_tags layers.2 = ∅) then
          report_verdict report = PASS ∧ report_failures report = []
        else if SpanTagValidationCheck.validate_all_tags self then
          report_verdict report = FAIL
          ∧ ∃ span_name check_name,
              report_failures report
              = [UNVALIDATED_TAGS_ERROR span_name check_name
                   (dom (report_leftover report))]
        else
          report_verdict report = WARN ∧ report_failures report = []
    end.
Proof.
  unfold report_of, SpanTagValidationCheck.check, bind at 1. cbv zeta.
  destruct (for_each _ (SpanTagValidationCheck.span_tags_checks self)
              (start_state shared self)) as [[[]|e] s1]; simpl; [|by intros [=]].
  unfold bind at 1, get.
  assert (bool_decide (0 < size (_tags s1)) = negb (bool_decide (_tags s1 = ∅)))
    as ->.
  { pose proof (map_size_empty_iff (_tags s1)) as Hsize.
    case_bool_decide as Hlt; case_bool_decide as He; simpl; try done.
    - apply Hsize in He. lia.
    - destruct He. apply Hsize. lia. }
  case_bool_decide as Hempty; simpl.
  - intros [= <- _]. simpl. split; [done|]. split; [done|].
    destruct (failures s1); by split.
  - destruct (SpanTagValidationCheck.validate_all_tags self).
    + unfold bind at 1, getitem.
      destruct (pd_get "name" (SpanTagValidationCheck.span self)) as [span_name|];
        simpl; [|by intros [=]].
      destruct (last (SpanTagValidationCheck.span_tags_checks self)) as [layer|];
        simpl; [|by intros [=]].
      intros [= <- _]. simpl. split; [done|]. split; [done|].
      destruct (failures s1) as [|m ms] eqn:Hf; simpl.
      * split; [done|]. by eexists _, _.
      * split; [done|]. by eexists.
    + intros [= <- _]. simpl. split; [done|]. split; [done|].
      destruct (failures s1); by split.
Qed.

(** ** State that outlives a run *)

(** C8, at the runs [bare_span], [python_span], [bare_span] of one process:
    the first run of [bare_span] reports the missing [language] tag and
    fails; its second run, against the same specifications, reports nothing
    and ends with a warning, because the dictionary [unpack] fills by default
    still holds [language] from the run in between.  The rule itself, checked
    on [bare_span], records the failure when that dictionary is empty and
    records nothing when it is the one the run in between left. *)
Theorem second_run_differs :
  let validate := validate_span base_loader base_fs "default" None in
  let run1 := validate bare_span ∅ in
  let run2 := validate python_span run1.2 in
  let run3 := validate bare_span run2.2 in
  let rule := SpanTagChecksLoader.make_tag_check (required_tag "language") in
  let state shared :=
    {| unpack_initial := shared; _tags := extract_tags bare_span ∅;
       failures := [] |} in
  run1.1 = Done {| report_failures :=
                     [REQUIRED_TAG_ERROR "language" (Leaf (VStr "a")) "general"];
                   report_leftover := {["error" := VInt 0]};
                   report_verdict := FAIL |}
  ∧ run3.1 = Done {| report_failures := [];
                     report_leftover := {["error" := VInt 0]};
                     report_verdict := WARN |}
  ∧ run1.1 ≠ run3.1
  ∧ run2.2 !! "language" = Some (VStr "python")
  ∧ failures (TagCheck.check rule bare_span "general" (state ∅)).2
    = [REQUIRED_TAG_ERROR "language" (Leaf (VStr "a")) "general"]
  ∧ failures (TagCheck.check rule bare_span "general" (state run2.2)).2 = [].
Proof. vm_compute. repeat split; try reflexivity. discriminate. Qed.

(** ** The flag [validate_all_tags] *)



(** ** The theorems at concrete runs *)

Lemma chunk_root_check_init :
  SpanTagValidationCheck.__init__ base_fs "default" chunk_root_span None None
    (Some (SpanTagChecksLoader.make_checks first_in_chunk_doc))
  = Done chunk_root_check.
Proof. vm_compute. reflexivity. Defined.

Lemma layer_plan_order_witness :
  (∃ general err internal,
     let language :=
       default (Leaf (VStr "default")) (pd_get "language" chunk_root_span) in
     SpanTagChecksLoader.load_span_tag_check base_fs
       (DdtracePath language "general-spec.json") None = Done general ∧
     SpanTagChecksLoader.load_span_tag_check base_fs
       (DdtracePath language "error-spec.json") None = Done err ∧
     SpanTagChecksLoader.load_span_tag_check base_fs
       (DdtracePath language "internal-spec.json") None = Done internal ∧
     SpanTagValidationCheck.span_tags_checks chunk_root_check =
     (general
       :: (if SpanTagValidationCheck.error_is_one chunk_root_span
           then [err] else [])
       ++ internal
       :: SpanTagValidationCheck.opt_list
            (Some (SpanTagChecksLoader.make_checks first_in_chunk_doc))
       ++ SpanTagValidationCheck.opt_list None
       ++ SpanTagValidationCheck.opt_list None)%list)
  ∧ SpanTagValidator.span_tag_rules_list
      (SpanTagValidator.validate redis_general_rules redis_command_span
         (SpanTagValidator.__init__ redis_general_rules None
            (Some redis_base_rules) (Some redis_root_rules) None)).2 =
    (GENERAL_SPAN_RULES redis_general_rules
      :: (if truthy (Leaf (VInt 0)) then [ERROR_SPAN_RULES redis_general_rules]
          else [])
      ++ INTERNAL_SPAN_RULES redis_general_rules
      :: SpanTagValidator.opt_list None
      ++ SpanTagValidator.opt_list None
      ++ SpanTagValidator.opt_list (Some redis_base_rules)
      ++ SpanTagValidator.opt_list (Some redis_root_rules))%list.
Proof.
  apply (layer_plan_order base_fs "default" chunk_root_span None None
           (Some (SpanTagChecksLoader.make_checks first_in_chunk_doc))
           chunk_root_check redis_general_rules redis_command_span
           (Leaf (VInt 0)) (Leaf VNone) None (Some redis_base_rules)
           (Some redis_root_rules) None).
  - exact chunk_root_check_init.
  - reflexivity.
  - reflexivity.
Defined.

Lemma required_pass_keeps_component_witness :
  (let s' := (SpanTagValidator.span_required_tag_validator redis_root_rules
                redis_state).2 in
   SpanTagValidator._tags s' !! "component" = Some (VStr "redis")
   ∧ SpanTagValidator.keep_component_tag_for_later_match s' = true)
  ∧ (∀ e_v : pyval,
       py_eq (VStr "redis") e_v = true →
       SpanTagValidator.match_tag redis_root_rules ("component", e_v) redis_state
       = (Done tt,
          SpanTagValidator.set_tags
            (delete "component" (SpanTagValidator._tags redis_state))
            redis_state)).
Proof.
  apply (required_pass_keeps_component redis_general_rules None
           (Some redis_root_rules) None redis_base_rules redis_root_rules
           redis_state (VStr "redis")).
  - reflexivity.
  - vm_compute. reflexivity.
Defined.

Lemma expected_value_rule_witness :
  (let flattened := unpack server_span (unpack_initial server_state) in
   let run := SpanTagChecks.check_tag http_layer server_span kind_rule
                server_state in
   match flattened !! TagCheck.name kind_rule with
   | Some actual =>
       run.1 = Done tt
       ∧ _tags run.2 = delete (TagCheck.name kind_rule) (_tags server_state)
       ∧ failures run.2
         = (failures server_state
            ++ if py_eq actual (TagCheck.value kind_rule) then []
               else [MATCHING_TAG_ERROR (TagCheck.name kind_rule)
                       (TagCheck.value kind_rule) (Leaf (VStr "web.request"))
                       (SpanTagChecks.name http_layer)])%list
   | None =>
       _tags run.2 = _tags server_state
       ∧ failures run.2
         = (failures server_state
            ++ [REQUIRED_TAG_ERROR (TagCheck.name kind_rule)
                  (Leaf (VStr "web.request"))
                  (SpanTagChecks.name http_layer)])%list
   end)
  ∧ (let run := SpanTagValidator.match_tag redis_root_rules
                  ("component", Leaf (VStr "redis")) redis_state in
     match SpanTagValidator._tags redis_state !! "component" with
     | Some actual =>
         if py_eq actual (Leaf (VStr "redis"))
         then run = (Done tt,
                     SpanTagValidator.set_tags
                       (delete "component" (SpanTagValidator._tags redis_state))
                       redis_state)
         else ∃ e, run = (Raised e, redis_state)
     | None => ∃ e, run = (Raised e, redis_state)
     end).
Proof.
  apply (expected_value_rule http_layer server_span kind_rule
           (Leaf (VStr "web.request")) server_state redis_root_rules
           "component" (Leaf (VStr "redis")) redis_state).
  - reflexivity.
  - reflexivity.
  - reflexivity.
Defined.

Lemma web_server_check_init :
  SpanTagValidationCheck.__init__ base_fs "default" web_server_span None
    (Some http_client_layer)
    (Some (SpanTagChecksLoader.make_checks first_in_chunk_doc))
  = Done web_server_check.
Proof. vm_compute. reflexivity. Qed.

(** The rules of its plan that [web_server_span] violates, one of each
    kind: a required tag that is missing, an expected value that is not the
    tag's value, a declared type that is not the type of the tag's value. *)
Lemma web_server_violations :
  plan_violations (unpack web_server_span ∅) (Leaf (VStr "web.request"))
    (SpanTagValidationCheck.span_tags_checks web_server_check)
  = [REQUIRED_TAG_ERROR "runtime-id" (Leaf (VStr "web.request"))
       "first_in_chunk";
     MATCHING_TAG_ERROR "span.kind" (Leaf (VStr "client"))
       (Leaf (VStr "web.request")) "http";
     TAG_VALUE_TYPE_ERROR "http.status_code" "integer" TStr].
Proof. vm_compute. reflexivity. Qed.

(** The validator on the same span: the comparison of [span.kind] raises,
    and neither the status code nor the layer after is looked at. *)
Lemma web_server_mismatch_raised :
  (for_each SpanTagValidator.validate_layer
     [GENERAL_SPAN_RULES redis_general_rules;
      INTERNAL_SPAN_RULES redis_general_rules;
      http_client_rules; runtime_rules] web_server_state).1
  = Raised (AssertionError
              (TAG_MISMATCH_ASSERTION (Leaf (VStr "web.request")) "http"
                 "span.kind" (VStr "server") (Leaf (VStr "client")))).
Proof. vm_compute. reflexivity. Qed.

(** The validator on a span without [component]: the required pass of the
    base layer raises, and the root layer is not evaluated. *)
Lemma redis_get_missing_raised :
  for_each SpanTagValidator.validate_layer
    [GENERAL_SPAN_RULES redis_general_rules;
     INTERNAL_SPAN_RULES redis_general_rules;
     redis_base_rules; redis_root_rules] redis_get_state
  = (Raised redis_get_missing_component,
     (SpanTagValidator.validate_layer redis_base_rules
        redis_get_before_base).2).
Proof. vm_compute. reflexivity. Qed.

Lemma violations_are_collected_witness :
  (let flattened :=
     unpack (SpanTagValidationCheck.span web_server_check)
       (unpack_initial (start_state ∅ web_server_check)) in
   let plan := SpanTagValidationCheck.span_tags_checks web_server_check in
   ∃ o s',
     SpanTagValidationCheck.check web_server_check
       (start_state ∅ web_server_check) = (Done o, s')
     ∧ _tags s' = plan_leftover (_tags (start_state ∅ web_server_check)) plan
     ∧ failures s'
       = (failures (start_state ∅ web_server_check)
          ++ plan_violations flattened (Leaf (VStr "web.request")) plan
          ++ closing_failure o (Leaf (VStr "web.request")) plan (_tags s'))%list)
  ∧ ∃ msg v',
      for_each SpanTagValidator.validate_layer
        ([GENERAL_SPAN_RULES redis_general_rules;
          INTERNAL_SPAN_RULES redis_general_rules]
         ++ http_client_rules :: [runtime_rules])%list web_server_state
      = (Raised (AssertionError msg), v')
      ∧ reports_violation (Leaf (VStr "web.request"))
          (rules_name http_client_rules) (_tag_comparisons http_client_rules)
          (_required_tags http_client_rules)
          (SpanTagValidator._tags web_server_before_http) msg
      ∧ SpanTagValidator.tag_rules v' = Some http_client_rules.
Proof.
  apply (violations_are_collected web_server_check (Leaf (VStr "web.request"))
           (start_state ∅ web_server_check)
           [GENERAL_SPAN_RULES redis_general_rules;
            INTERNAL_SPAN_RULES redis_general_rules]
           http_client_rules [runtime_rules] web_server_state
           web_server_before_http (Leaf (VStr "web.request"))).
  - reflexivity.
  - discriminate.
  - repeat constructor.
  - reflexivity.
  - vm_compute. reflexivity.
  - left. apply Exists_cons_hd. vm_compute. reflexivity.
Defined.

Lemma verdict_of_run_witness :
  report_of chunk_root_check ∅
  = (Done chunk_root_report, unpack chunk_root_span ∅)
  ∧ (let layers :=
       for_each
         (λ layer,
            SpanTagChecks.check layer (SpanTagValidationCheck.span chunk_root_check))
         (SpanTagValidationCheck.span_tags_checks chunk_root_check)
         (start_state ∅ chunk_root_check) in
     layers.1 = Done tt
     ∧ report_leftover chunk_root_report = _tags layers.2
     ∧ match failures layers.2 with
       | _ :: _ =>
           report_verdict chunk_root_report = FAIL
           ∧ failures layers.2 `prefix_of` report_failures chunk_root_report
       | [] =>
           if bool_decide (_tags layers.2 = ∅) then
             report_verdict chunk_root_report = PASS
             ∧ report_failures chunk_root_report = []
           else if SpanTagValidationCheck.validate_all_tags chunk_root_check then
             report_verdict chunk_root_report = FAIL
             ∧ ∃ span_name check_name,
                 report_failures chunk_root_report
                 = [UNVALIDATED_TAGS_ERROR span_name check_name
                      (dom (report_leftover chunk_root_report))]
           else
             report_verdict chunk_root_report = WARN
             ∧ report_failures chunk_root_report = []
       end).
Proof.
  assert (report_of chunk_root_check ∅
          = (Done chunk_root_report, unpack chunk_root_span ∅)) as Hrun
    by (vm_compute; reflexivity).
  split; [exact Hrun|].
  exact (verdict_of_run chunk_root_check ∅ (unpack chunk_root_span ∅)
           chunk_root_report Hrun).
Defined.



(** * Further properties *)

(** ** The two flatteners *)

(** X1: the working set [extract_tags] builds is the flattened span of
    [unpack] without the baseline fields, and every tag of it is found, with
    its value, in what [unpack] returns on top of any dictionary. *)
Theorem working_set_is_filtered_unpack (span : pydict)
  (initial : gmap string leaf) :
  extract_tags span ∅
  = filter (λ kv, kv.1 ∉ IGNORED_TAGS) (unpack span ∅)
  ∧ extract_tags span ∅ ⊆ unpack span initial.
Proof.
  split.
  - apply map_eq. intros key.
    rewrite extract_tags_lookup, lookup_empty.
    destruct (decide (key ∈ IGNORED_TAGS)) as [Hin|Hin].
    + symmetry. apply map_lookup_filter_None. right. intros v _. simpl. tauto.
    + destruct (last_leaf key (leaves span)) as [v|] eqn:Hlast.
      * symmetry. apply map_lookup_filter_Some. split; [|done].
        by rewrite unpack_lookup, Hlast.
      * symmetry. apply map_lookup_filter_None. left.
        by rewrite unpack_lookup, Hlast, lookup_empty.
  - apply map_subseteq_spec. intros key v.
    rewrite extract_tags_lookup, lookup_empty, unpack_lookup.
    destruct (decide (key ∈ IGNORED_TAGS)); [done|].
    by destruct (last_leaf key (leaves span)).
Qed.

(** X2: [unpack] writes the leaves of the span over the dictionary it is
    given and keeps every other entry: the result is the flattened span
    united with the given dictionary, no key is ever removed, and a second
    call on the same span changes nothing. *)
Theorem unpack_accumulates (data : pydict) (initial : gmap string leaf) :
  unpack data initial = unpack data ∅ ∪ initial
  ∧ dom initial ⊆ dom (unpack data initial)
  ∧ unpack data (unpack data initial) = unpack data initial.
Proof.
  assert (unpack data initial = unpack data ∅ ∪ initial) as Hunion.
  { apply map_eq. intros key. rewrite lookup_union, !unpack_lookup, lookup_empty.
    destruct (last_leaf key (leaves data)); simpl.
    - by destruct (initial !! key).
    - by rewrite (left_id None _). }
  split; [done|]. split.
  - rewrite Hunion, dom_union. set_solver.
  - apply map_eq. intros key. rewrite !unpack_lookup.
    by destruct (last_leaf key (leaves data)).
Qed.

Lemma validator_extract_tags_lookup (type_rules_exist : bool) (span : pydict) :
  ∀ (extracted_tags : gmap string leaf) (key : string),
    SpanTagValidator.extract_tags type_rules_exist span extracted_tags !! key =
    if decide (key ∈ IGNORED_TAGS) then extracted_tags !! key
    else if bool_decide (key = "type") && type_rules_exist
         then extracted_tags !! key
    else match last_leaf key (leaves span) with
         | Some v => Some v
         | None => extracted_tags !! key
         end.
Proof.
  induction span as [|k v IHv rest IHrest|l|d IHd]
    using pydict_mut
    with (P0 := λ v, ∀ d, v = Dict d →
                  ∀ (extracted_tags : gmap string leaf) (key : string),
                    SpanTagValidator.extract_tags type_rules_exist d
                      extracted_tags !! key =
                    if decide (key ∈ IGNORED_TAGS) then extracted_tags !! key
                    else if bool_decide (key = "type") && type_rules_exist
                         then extracted_tags !! key
                    else match last_leaf key (leaves d) with
                         | Some x => Some x
                         | None => extracted_tags !! key
                         end).
  - intros ? key. simpl. case_decide; [done|]. by destruct (_ && _).
  - intros extracted_tags key. destruct v as [l|d]; simpl.
    + destruct (decide (k ∈ IGNORED_TAGS)) as [Hk|Hk]; [|
        destruct (bool_decide (k = "type") && type_rules_exist) eqn:Hty];
        rewrite IHrest;
        destruct (decide (key ∈ IGNORED_TAGS)) as [Hkey|Hkey];
        try done;
        destruct (bool_decide (key = "type") && type_rules_exist) eqn:Hkty;
        try done;
        try (destruct (last_leaf key (leaves rest)); [done|]);
        rewrite ?lookup_insert; repeat case_decide; subst;
        try done; congruence.
    + rewrite IHrest, last_leaf_app, (IHv d eq_refl).
      destruct (decide (key ∈ IGNORED_TAGS)); [done|].
      destruct (bool_decide (key = "type") && type_rules_exist); [done|].
      by destruct (last_leaf key (leaves rest)).
  - discriminate.
  - intros d' [= <-]. exact IHd.
Qed.

(** X3: the validator's [extract_tags] is the one of the validation check
    when there are no type rules, and drops the [type] tag from it, at any
    depth of the span, when there are. *)
Theorem validator_extract_tags_drops_type (type_rules_exist : bool)
  (span : pydict) :
  SpanTagValidator.extract_tags type_rules_exist span ∅
  = if type_rules_exist then delete "type" (extract_tags span ∅)
    else extract_tags span ∅.
Proof.
  apply map_eq. intros key.
  rewrite validator_extract_tags_lookup, lookup_empty.
  destruct type_rules_exist.
  - rewrite andb_true_r, lookup_delete, extract_tags_lookup, lookup_empty.
    case_bool_decide as Hkey.
    + subst key. rewrite (decide_True (P := "type" = "type")) by done.
      by case_decide.
    + rewrite (decide_False (P := "type" = key)) by congruence. done.
  - rewrite andb_false_r, extract_tags_lookup, lookup_empty.
    case_decide; [done|]. by destruct (last_leaf key (leaves span)).
Qed.

(** ** The passes of the validator *)

Lemma lookup_remove_tags (names : list string) :
  ∀ (tags : gmap string leaf) (key : string),
    remove_tags tags names !! key
    = if decide (key ∈ names) then None else tags !! key.
Proof.
  unfold remove_tags.
  induction names as [|tag names IH]; intros tags key; simpl.
  - by destruct (decide (key ∈ [])) as [?%elem_of_nil|].
  - rewrite IH, lookup_delete.
    destruct (decide (key ∈ names)) as [Hin|Hin],
      (decide (key ∈ tag :: names)) as [Hin'|Hin']; try done.
    + destruct Hin'. by right.
    + apply elem_of_cons in Hin' as [->|?]; [|done]. by rewrite decide_True.
    + rewrite decide_False; [done|]. intros ->. destruct Hin'. by left.
Qed.

Lemma set_tags_same (self : SpanTagValidator.t) :
  SpanTagValidator.set_tags (SpanTagValidator._tags self) self = self.
Proof. by destruct self. Qed.

Lemma optional_tags_done (names : list string) :
  ∀ (tags : gmap string leaf) (self : SpanTagValidator.t),
    for_each SpanTagValidator.optional_tag names
      (SpanTagValidator.set_tags tags self)
    = (Done tt, SpanTagValidator.set_tags (remove_tags tags names) self).
Proof.
  induction names as [|tag names IH]; intros tags self; simpl; [done|].
  unfold bind at 1, SpanTagValidator.optional_tag, bind, get. simpl.
  case_bool_decide as Htag; simpl.
  - apply (IH (delete tag tags) self).
  - rewrite (delete_id tags tag); [apply IH|]. by apply eq_None_not_Some.
Qed.

(** X4: the optional pass always returns: it raises nothing, whatever the
    working set; it deletes every tag the layer names as optional, [component]
    included even when the validator keeps it in the required pass, and
    changes nothing else. *)
Theorem optional_pass_removes_named_tags (rules : SpanTagRules)
  (self : SpanTagValidator.t) :
  SpanTagValidator.span_optional_tag_validator rules self
  = (Done tt,
     SpanTagValidator.set_tags
       (remove_tags (SpanTagValidator._tags self) (_optional_tags rules)) self)
  ∧ ∀ key : string,
      remove_tags (SpanTagValidator._tags self) (_optional_tags rules) !! key
      = if decide (key ∈ _optional_tags rules) then None
        else SpanTagValidator._tags self !! key.
Proof.
  split; [|apply lookup_remove_tags].
  unfold SpanTagValidator.span_optional_tag_validator.
  destruct (_optional_tags rules) as [|tag names] eqn:Hnames.
  - simpl. by rewrite set_tags_same.
  - rewrite <- (set_tags_same self) at 1. apply optional_tags_done.
Qed.

Lemma require_tags_done (rules : SpanTagRules) (self : SpanTagValidator.t)
  (names : list string) :
  NoDup names →
  ∀ tags : gmap string leaf,
    (∀ tag, tag ∈ names → is_Some (tags !! tag)) →
    for_each (SpanTagValidator.require_tag rules) names
      (SpanTagValidator.set_tags tags self)
    = (Done tt,
       SpanTagValidator.set_tags
         (remove_tags tags (deleted_by_required self names)) self).
Proof.
  induction 1 as [|tag names Hnotin _ IH]; intros tags Hall; simpl; [done|].
  unfold bind at 1, SpanTagValidator.require_tag, bind, get. simpl.
  destruct (Hall tag) as [v Hv]; [by left|]. rewrite Hv.
  unfold deleted_by_required. rewrite filter_cons.
  destruct (decide (tag ≠ "component"
                    ∨ SpanTagValidator.keep_component_tag_for_later_match self
                      = false)) as [Hdel|Hkeep].
  - replace (bool_decide (tag ≠ "component")
             || negb (SpanTagValidator.keep_component_tag_for_later_match self))
      with true.
    2:{ symmetry. destruct Hdel as [Hne| ->].
        - by rewrite bool_decide_eq_true_2.
        - by rewrite orb_true_r. }
    simpl. apply (IH (delete tag tags)).
    intros tag' Hin. rewrite lookup_delete_ne; [|by intros ->].
    apply Hall. by right.
  - replace (bool_decide (tag ≠ "component")
             || negb (SpanTagValidator.keep_component_tag_for_later_match self))
      with false.
    2:{ symmetry. apply orb_false_iff. split.
        - apply bool_decide_eq_false_2. tauto.
        - destruct (SpanTagValidator.keep_component_tag_for_later_match self);
            [done|tauto]. }
    simpl. apply IH. intros tag' Hin. apply Hall. by right.
Qed.

(** X5: when the required tags of a layer are distinct and all in the
    working set, the required pass returns, and it has deleted exactly those
    tags, [component] excepted when the validator keeps it. *)
Theorem required_pass_succeeds (rules : SpanTagRules)
  (self : SpanTagValidator.t) :
  NoDup (_required_tags rules) →
  (∀ tag, tag ∈ _required_tags rules →
          is_Some (SpanTagValidator._tags self !! tag)) →
  SpanTagValidator.span_required_tag_validator rules self
  = (Done tt,
     SpanTagValidator.set_tags
       (remove_tags (SpanTagValidator._tags self)
          (deleted_by_required self (_required_tags rules))) self).
Proof.
  intros Hnodup Hall.
  unfold SpanTagValidator.span_required_tag_validator.
  destruct (_required_tags rules) as [|tag names] eqn:Hnames.
  - simpl. by rewrite set_tags_same.
  - rewrite <- (set_tags_same self) at 1. by apply require_tags_done.
Qed.

(** X6: the required pass raises at the first required tag that is not in
    the working set when its turn comes, be it missing from the span or
    deleted as an earlier entry of the same list: the exception is the
    [AssertionError] naming that tag and the keys then left, the tags before
    it have been deleted, and the tags after it are not looked at. *)
Theorem required_pass_raises_at_first_missing (rules : SpanTagRules)
  (self : SpanTagValidator.t) (before after : list string) (tag : string)
  (span_name : pyval) :
  _required_tags rules = (before ++ tag :: after)%list →
  NoDup before →
  (∀ t, t ∈ before → is_Some (SpanTagValidator._tags self !! t)) →
  remove_tags (SpanTagValidator._tags self) (deleted_by_required self before)
    !! tag = None →
  pd_get "name" (SpanTagValidator.span self) = Some span_name →
  let left := remove_tags (SpanTagValidator._tags self)
                (deleted_by_required self before) in
  SpanTagValidator.span_required_tag_validator rules self
  = (Raised (AssertionError
               (TAG_MISSING_ASSERTION span_name (rules_name rules) tag
                  (dom left))),
     SpanTagValidator.set_tags left self).
Proof.
  intros Hnames Hnodup Hall Hmissing Hname. cbv zeta.
  unfold SpanTagValidator.span_required_tag_validator.
  rewrite Hnames.
  destruct (before ++ tag :: after)%list as [|x xs] eqn:Hlist;
    [by destruct before|].
  rewrite <- Hlist, for_each_app.
  rewrite <- (set_tags_same self) at 1.
  rewrite (require_tags_done rules self before Hnodup _ Hall).
  apply for_each_raised.
  unfold SpanTagValidator.require_tag, bind, get. simpl.
  rewrite Hmissing.
  unfold SpanTagValidator.assertion_failure, bind, get, getitem. simpl.
  by rewrite Hname.
Qed.

(** ** The integration index *)

Lemma enumerate_specs_lookup (data : list spec_doc) :
  ∀ (i : nat) (acc : gmap string nat) (name : string),
    SpanTagChecksLoader.enumerate_specs i data acc !! name
    = match last_named name data with
      | Some j => Some (i + j)
      | None => acc !! name
      end.
Proof.
  induction data as [|d data IH]; intros i acc name; simpl; [done|].
  rewrite IH. destruct (last_named name data) as [j|].
  - f_equal. lia.
  - rewrite lookup_insert. case_decide; [|done]. f_equal. lia.
Qed.

Lemma last_named_Some (name : string) (ds : list spec_doc) (i : nat) :
  last_named name ds = Some i →
  ∃ d, ds !! i = Some d ∧ doc_name d = name
       ∧ ∀ j d', i < j → ds !! j = Some d' → doc_name d' ≠ name.
Proof.
  revert i. induction ds as [|d ds IH]; intros i; simpl; [done|].
  destruct (last_named name ds) as [k|] eqn:Hk.
  - intros [= <-]. destruct (IH k eq_refl) as (d0 & Hd0 & Hn & Hlater).
    exists d0. split_and!; [done|done|].
    intros [|j] d' Hlt Hj; [lia|]. apply (Hlater j); [lia|done].
  - case_decide as Hd; [|done]. intros [= <-]. exists d. split_and!; [done|done|].
    intros [|j] d' Hlt Hj; [lia|]. simpl in Hj. intros Hname.
    clear IH Hlt. revert j Hj. induction ds as [|x ds IH']; intros j Hj; [done|].
    simpl in Hk. destruct (last_named name ds) eqn:Hrest; [done|].
    case_decide; [done|]. destruct j as [|j]; simpl in Hj.
    + congruence.
    + by apply (IH' eq_refl j).
Qed.

Lemma last_named_is_Some (ds : list spec_doc) (i : nat) (d : spec_doc) :
  ds !! i = Some d → is_Some (last_named (doc_name d) ds).
Proof.
  revert i. induction ds as [|x ds IH]; intros [|i] Hi; simpl in *; try done.
  - injection Hi as ->. destruct (last_named (doc_name d) ds); [done|].
    by rewrite decide_True.
  - destruct (IH i Hi) as [j ->]. done.
Qed.

(** X7: the index the loader builds for a file that holds a list of
    documents sends a name to a position of the list where a document of that
    name sits, the last one when several have the name, and every document's
    name is in the index. *)
Theorem file_index_points_at_named_document (ds : list spec_doc) :
  (∀ (name : string) (i : nat),
     SpanTagChecksLoader.file_index (JArray ds) !! name = Some i →
     ∃ d, ds !! i = Some d ∧ doc_name d = name
          ∧ ∀ j d', i < j → ds !! j = Some d' → doc_name d' ≠ name)
  ∧ (∀ (i : nat) (d : spec_doc),
       ds !! i = Some d →
       is_Some (SpanTagChecksLoader.file_index (JArray ds) !! doc_name d)).
Proof.
  unfold SpanTagChecksLoader.file_index. split.
  - intros name i. rewrite enumerate_specs_lookup, lookup_empty.
    destruct (last_named name ds) as [j|] eqn:Hj; [|done].
    intros [= <-]. by apply last_named_Some.
  - intros i d Hd. rewrite enumerate_specs_lookup.
    by destruct (last_named_is_Some ds i d Hd) as [j ->].
Qed.

Lemma strip_suffix_spec_json (component : string) :
  SpanTagChecksLoader.strip_suffix (component +:+ "-spec.json") = component.
Proof.
  unfold SpanTagChecksLoader.strip_suffix.
  induction component as [|a component IH]; [done|].
  simpl String.append. simpl String.length.
  replace (S (String.length (component +:+ "-spec.json")) - 10)
    with (S (String.length (component +:+ "-spec.json") - 10)).
  - simpl. by rewrite IH.
  - assert (10 ≤ String.length (component +:+ "-spec.json"))%nat; [|lia].
    clear IH. induction component as [|b component IH]; simpl; lia.
Qed.

Lemma index_files_lookup (key : string) (data : file_data)
  (files : list (string * file_data)) :
  (∀ f d, (f, d) ∈ files → SpanTagChecksLoader.strip_suffix f = key → d = data) →
  ∀ acc : gmap string (gmap string nat),
    (∃ f, (f, data) ∈ files ∧ SpanTagChecksLoader.strip_suffix f = key)
    ∨ acc !! key = Some (SpanTagChecksLoader.file_index data) →
    SpanTagChecksLoader.index_files files acc !! key
    = Some (SpanTagChecksLoader.file_index data).
Proof.
  induction files as [|[f d] files IH]; intros Hsame acc Hin; simpl.
  - destruct Hin as [(f & []%elem_of_nil & _)|Hacc]; done.
  - apply IH.
    + intros f' d' Hin'. apply Hsame. by right.
    + destruct (decide (SpanTagChecksLoader.strip_suffix f = key)) as [Hkey|Hkey].
      * right. rewrite Hkey, lookup_insert_eq.
        by rewrite (Hsame f d (list_elem_of_here _ _) Hkey).
      * destruct Hin as [(f' & Hin & Hf')|Hacc].
        -- apply elem_of_cons in Hin as [[= -> ->]|Hin]; [done|].
           left. by exists f'.
        -- right. by rewrite lookup_insert_ne.
Qed.

Lemma assoc_get_NoDup {A : Type} (key : string) (a : A)
  (l : list (string * A)) :
  NoDup l.*1 → (key, a) ∈ l → assoc_get key l = Some a.
Proof.
  induction l as [|[k x] l IH]; simpl; intros Hnodup Hin;
    [by apply elem_of_nil in Hin|].
  apply NoDup_cons in Hnodup as [Hk Hnodup].
  apply elem_of_cons in Hin as [[= -> ->]|Hin].
  - by rewrite decide_True.
  - rewrite decide_False; [by apply IH|].
    intros ->. apply Hk. apply list_elem_of_fmap. by exists (key, a).
Qed.

(** The lookup of [find_span_tag_check] once the position in the
    component's file is known. *)
Lemma find_span_tag_check_at (self : SpanTagChecksLoader.t) (fs : filesystem)
  (LANGUAGE : string) (span : pydict) (component : string)
  (specs : gmap string nat) (spec_index : nat) (ds : list spec_doc)
  (d : spec_doc) :
  SpanTagChecksLoader.span_component span = Done (Leaf (VStr component)) →
  component ≠ "" →
  SpanTagChecksLoader.integration_specs self !! component = Some specs →
  SpanTagChecksLoader.find_spec_index specs component (pd_get "name" span)
  = Done spec_index →
  read_file fs (IntegrationPath (component +:+ "-spec.json")) = Some (JArray ds) →
  ds !! spec_index = Some d →
  match SpanTagChecksLoader.find_span_tag_check self fs LANGUAGE span with
  | Done found =>
      SpanTagChecksLoader.integration_span_check found
      = Some (SpanTagChecksLoader.make_checks d)
  | Raised e =>
      ∃ span_type,
        doc_type d = Some span_type ∧ span_type ∈ TESTED_SPAN_TYPES ∧
        SpanTagChecksLoader.load_type_check fs LANGUAGE span_type = Raised e
  end.
Proof.
  intros Hc Hne Hspecs Hidx Hfile Hd.
  unfold SpanTagChecksLoader.find_span_tag_check,
    SpanTagChecksLoader.find_integration.
  rewrite Hc. apply String.eqb_neq in Hne. rewrite Hne, Hspecs, Hidx.
  unfold SpanTagChecksLoader.load_span_tag_check at 1.
  rewrite Hfile, Hd. simpl.
  destruct (doc_type d) as [span_type|]; simpl.
  - destruct (negb (String.eqb span_type "")
              && bool_decide (span_type ∈ TESTED_SPAN_TYPES)) eqn:Htested.
    + apply andb_true_iff in Htested as [_ Hin%bool_decide_eq_true].
      destruct (SpanTagChecksLoader.load_type_check fs LANGUAGE span_type)
        eqn:Hload; simpl.
      * by destruct (pd_get "type" span) as [[[]|]|].
      * eauto.
    + simpl. by destruct (pd_get "type" span) as [[[]|]|].
  - by destruct (pd_get "type" span) as [[[]|]|].
Qed.

(** X8: a loader built from an integration directory finds, for a span of a
    component whose file [<component>-spec.json] is a list of documents that
    has one with the span's name, the check of a document of that name (the
    last such document of the list); the call returns it unless loading the
    type specification that document names raises. *)
Theorem loader_finds_document_by_name
  (fs : filesystem) (files : list (string * file_data)) (LANGUAGE : string)
  (span : pydict) (component span_name : string) (ds : list spec_doc)
  (i : nat) :
  integration_dir fs = Some files →
  NoDup files.*1 →
  (component +:+ "-spec.json", JArray ds) ∈ files →
  (∀ f d, (f, d) ∈ files → SpanTagChecksLoader.strip_suffix f = component →
          d = JArray ds) →
  component ≠ "" →
  SpanTagChecksLoader.span_component span = Done (Leaf (VStr component)) →
  pd_get "name" span = Some (Leaf (VStr span_name)) →
  last_named span_name ds = Some i →
  ∃ loader d,
    SpanTagChecksLoader.__init__ fs = Done loader
    ∧ ds !! i = Some d
    ∧ doc_name d = span_name
    ∧ match SpanTagChecksLoader.find_span_tag_check loader fs LANGUAGE span with
      | Done found =>
          SpanTagChecksLoader.integration_span_check found
          = Some (SpanTagChecksLoader.make_checks d)
      | Raised e =>
          ∃ span_type,
            doc_type d = Some span_type ∧ span_type ∈ TESTED_SPAN_TYPES ∧
            SpanTagChecksLoader.load_type_check fs LANGUAGE span_type = Raised e
      end.
Proof.
  intros Hdir Hnodup Hin Hsame Hne Hc Hname Hlast.
  destruct (last_named_Some span_name ds i Hlast) as (d & Hd & Hdn & _).
  eexists _, d. unfold SpanTagChecksLoader.__init__. rewrite Hdir.
  split; [done|]. split; [done|]. split; [done|].
  apply (find_span_tag_check_at _ fs LANGUAGE span component
           (SpanTagChecksLoader.file_index (JArray ds)) i ds d); try done.
  - simpl. apply (index_files_lookup component (JArray ds)); [done|]. left.
    eexists. split; [done|]. apply strip_suffix_spec_json.
  - rewrite Hname. simpl. unfold SpanTagChecksLoader.file_index.
    by rewrite enumerate_specs_lookup, Hlast.
  - unfold read_file. rewrite Hdir. by apply assoc_get_NoDup.
Qed.

Lemma load_type_check_tested (fs : filesystem) (LANGUAGE span_type : string)
  (type_check : SpanTagChecks.t) :
  span_type ∈ TESTED_SPAN_TYPES →
  SpanTagChecksLoader.load_type_check fs LANGUAGE span_type = Done type_check →
  ∃ doc,
    ddtrace_file fs (Leaf (VStr LANGUAGE)) "http-spec.json" = Some (JObject doc)
    ∧ type_check = SpanTagChecksLoader.make_checks doc.
Proof.
  intros ->%list_elem_of_singleton.
  unfold SpanTagChecksLoader.load_type_check,
    SpanTagChecksLoader.load_span_tag_check. simpl.
  change ("http" +:+ "-spec.json") with "http-spec.json".
  destruct (ddtrace_file fs (Leaf (VStr LANGUAGE)) "http-spec.json")
    as [[doc|ds]|]; [|done..].
  intros [= <-]. by exists doc.
Qed.

(** X9: whatever the span and the index, a type check that
    [find_span_tag_check] returns is the check of the document
    [http-spec.json] of the directory of the process language [LANGUAGE],
    also for a span that carries a [language] of its own. *)
Theorem type_check_is_http_specification
  (self : SpanTagChecksLoader.t) (fs : filesystem) (LANGUAGE : string)
  (span : pydict) (found : SpanTagChecksLoader.span_checks)
  (type_check : SpanTagChecks.t) :
  SpanTagChecksLoader.find_span_tag_check self fs LANGUAGE span = Done found →
  SpanTagChecksLoader.type_span_check found = Some type_check →
  ∃ doc,
    ddtrace_file fs (Leaf (VStr LANGUAGE)) "http-spec.json" = Some (JObject doc)
    ∧ type_check = SpanTagChecksLoader.make_checks doc.
Proof.
  unfold SpanTagChecksLoader.find_span_tag_check.
  destruct (SpanTagChecksLoader.find_integration self fs LANGUAGE span)
    as [checks|] eqn:Hint; [|done].
  assert (∀ tc, SpanTagChecksLoader.type_span_check checks = Some tc →
            ∃ doc,
              ddtrace_file fs (Leaf (VStr LANGUAGE)) "http-spec.json"
              = Some (JObject doc)
              ∧ tc = SpanTagChecksLoader.make_checks doc) as Hchecks.
  { revert Hint. unfold SpanTagChecksLoader.find_integration.
    destruct (SpanTagChecksLoader.span_component span) as [[[| | | |c]|]|];
      try (by intros [= <-]); try done.
    destruct (String.eqb c ""); [by intros [= <-]|].
    destruct (SpanTagChecksLoader.integration_specs self !! c);
      [|by intros [= <-]].
    destruct (SpanTagChecksLoader.find_spec_index _ _ _); [|done].
    destruct (SpanTagChecksLoader.load_span_tag_check _ _ _)
      as [integration|]; [|done].
    destruct (SpanTagChecks.span_type integration) as [span_type|];
      [|by intros [= <-]].
    destruct (negb (String.eqb span_type "")
              && bool_decide (span_type ∈ TESTED_SPAN_TYPES)) eqn:Htested;
      [|by intros [= <-]].
    apply andb_true_iff in Htested as [_ Hin%bool_decide_eq_true].
    destruct (SpanTagChecksLoader.load_type_check fs LANGUAGE span_type)
      as [tc0|] eqn:Hload; [|done].
    intros [= <-] tc [= <-]. by apply (load_type_check_tested _ _ span_type). }
  destruct (pd_get "type" span) as [[[| | | |span_type]|]|];
    try (intros [= <-]; apply Hchecks).
  destruct (SpanTagChecksLoader.integration_span_check checks);
    [intros [= <-]; apply Hchecks|].
  destruct (negb (String.eqb span_type "")
            && bool_decide (span_type ∈ TESTED_SPAN_TYPES)) eqn:Htested;
    [|intros [= <-]; apply Hchecks].
  apply andb_true_iff in Htested as [_ Hin%bool_decide_eq_true].
  destruct (SpanTagChecksLoader.load_type_check fs LANGUAGE span_type)
    as [tc0|] eqn:Hload; [|done].
  intros [= <-] [= <-]. by apply (load_type_check_tested _ _ span_type).
Qed.

(** ** What a validation check leaves *)

Lemma layer_leftover_remove (layer : SpanTagChecks.t) :
  ∀ tags : gmap string leaf,
    layer_leftover tags layer
    = remove_tags tags (TagCheck.name <$> SpanTagChecks.tag_checks layer).
Proof.
  unfold layer_leftover, remove_tags.
  induction (SpanTagChecks.tag_checks layer) as [|rule rules IH]; intros tags;
    simpl; [done|apply IH].
Qed.

Lemma plan_leftover_lookup (plan : list SpanTagChecks.t) :
  ∀ (tags : gmap string leaf) (key : string),
    plan_leftover tags plan !! key
    = if decide (key ∈ plan_tag_names plan) then None else tags !! key.
Proof.
  unfold plan_leftover, plan_tag_names.
  induction plan as [|layer plan IH]; intros tags key; simpl.
  - by destruct (decide (key ∈ [])) as [?%elem_of_nil|].
  - rewrite IH, layer_leftover_remove, lookup_remove_tags.
    destruct (decide (key ∈ (_ ++ _)%list)) as [Hin|Hin];
      rewrite elem_of_app in Hin;
      destruct (decide (key ∈ flat_map _ plan)); try done;
      try destruct (decide (key ∈ _ <$> _)); try done; tauto.
Qed.

(** X10: a validation check whose rules raise nothing ends with the working
    set it started with minus every tag a rule of the plan names, whether
    the rule was satisfied or not; it ends in the success branch exactly when
    every tag of the working set is named by some rule. *)
Theorem success_iff_every_tag_named
  (self : SpanTagValidationCheck.t) (span_name : pyval)
  (shared : gmap string leaf) :
  pd_get "name" (SpanTagValidationCheck.span self) = Some span_name →
  SpanTagValidationCheck.span_tags_checks self ≠ [] →
  Forall (layer_safe (unpack (SpanTagValidationCheck.span self) shared))
    (SpanTagValidationCheck.span_tags_checks self) →
  ∃ o s',
    SpanTagValidationCheck.check self (start_state shared self) = (Done o, s')
    ∧ (∀ key : string,
         _tags s' !! key
         = if decide (key ∈ plan_tag_names
                              (SpanTagValidationCheck.span_tags_checks self))
           then None
           else SpanTagValidationCheck.extracted_tags self !! key)
    ∧ (o = SpanTagValidationCheck.validation_success
       ↔ ∀ key : string,
           is_Some (SpanTagValidationCheck.extracted_tags self !! key) →
           key ∈ plan_tag_names (SpanTagValidationCheck.span_tags_checks self)).
Proof.
  intros Hname Hplan Hsafe.
  unfold SpanTagValidationCheck.check, bind at 1.
  destruct (plan_checks_eq (SpanTagValidationCheck.span self) span_name
              (unpack (SpanTagValidationCheck.span self) shared)
              (SpanTagValidationCheck.span_tags_checks self) Hname
              (unpack_idem _ _) Hsafe (start_state shared self) eq_refl)
    as (s1 & H1 & _ & H3 & _).
  rewrite H1. unfold bind at 1, get.
  assert (∀ key : string,
            _tags s1 !! key
            = if decide (key ∈ plan_tag_names
                                 (SpanTagValidationCheck.span_tags_checks self))
              then None
              else SpanTagValidationCheck.extracted_tags self !! key) as Hleft.
  { intros key. by rewrite H3, plan_leftover_lookup. }
  assert (_tags s1 = ∅
          ↔ ∀ key : string,
              is_Some (SpanTagValidationCheck.extracted_tags self !! key) →
              key ∈ plan_tag_names (SpanTagValidationCheck.span_tags_checks self))
    as Hempty.
  { split.
    - intros He key Hkey. specialize (Hleft key). rewrite He, lookup_empty in Hleft.
      case_decide; [done|]. rewrite <- Hleft in Hkey. by destruct Hkey.
    - intros Hall. apply map_eq. intros key. rewrite Hleft, lookup_empty.
      case_decide as Hin; [done|].
      destruct (SpanTagValidationCheck.extracted_tags self !! key) eqn:Hk;
        [|done].
      destruct Hin. apply Hall. by rewrite Hk. }
  destruct (last (SpanTagValidationCheck.span_tags_checks self)) as [layer|] eqn:Hlast;
    [|by apply last_None in Hlast].
  case_bool_decide as Hsize.
  - assert (_tags s1 ≠ ∅) as Hne.
    { intros He. rewrite He, map_size_empty in Hsize. lia. }
    destruct (SpanTagValidationCheck.validate_all_tags self).
    + unfold bind, getitem, fail, modify, ret. rewrite Hname. simpl.
      eexists _, _. split; [done|]. simpl. split; [done|].
      split; [done|]. intros Hall. by apply Hempty in Hall.
    + exists SpanTagValidationCheck.tags_not_asserted_on, s1.
      split; [done|]. split; [done|].
      split; [done|]. intros Hall. by apply Hempty in Hall.
  - exists SpanTagValidationCheck.validation_success, s1.
    split; [done|]. split; [done|]. split; [|done]. intros _.
    apply Hempty. apply map_size_empty_iff. lia.
Qed.

(** ** State the validator carries from one span to the next *)

(** X11: a validator that is used for two spans keeps what the first run
    changed: the error layer is inserted at position 1 once more for every
    span with a truthy error indicator, so two such spans leave it twice in
    the plan; and once a span with a type has cleared [validate_all_tags]
    for want of type rules, the flag stays cleared for every later span,
    also one without a type. *)
Theorem validator_keeps_state_between_runs
  (G : general_rules) (sp1 sp2 : pydict) (error1 type1 error2 type2 : pyval)
  (self : SpanTagValidator.t) :
  pd_get "error" sp1 = Some error1 →
  pd_get "type" sp1 = Some type1 →
  pd_get "error" sp2 = Some error2 →
  pd_get "type" sp2 = Some type2 →
  let after1 := (SpanTagValidator.validate G sp1 self).2 in
  let after2 := (SpanTagValidator.validate G sp2 after1).2 in
  (truthy error1 = true → truthy error2 = true →
   SpanTagValidator.span_tag_rules_list after2
   = list_insert_at 1 (ERROR_SPAN_RULES G)
       (list_insert_at 1 (ERROR_SPAN_RULES G)
          (SpanTagValidator.span_tag_rules_list self)))
  ∧ (truthy type1 = true →
     SpanTagValidator.type_span_rules_exist self = false →
     SpanTagValidator.validate_all_tags after2 = false)
  ∧ (SpanTagValidator.validate_all_tags after2 = true →
     SpanTagValidator.validate_all_tags self = true).
Proof.
  intros He1 Ht1 He2 Ht2. cbv zeta.
  pose proof (ValidatorFrame.validate_frame G sp1 error1 type1 self He1 Ht1)
    as H1.
  pose proof (ValidatorFrame.validate_frame G sp2 error2 type2
                (SpanTagValidator.validate G sp1 self).2 He2 Ht2) as H2.
  unfold frame in H1, H2.
  injection H1 as Hx1 Hk1 Hv1 Hl1 _. injection H2 as _ _ Hv2 Hl2 _.
  rewrite Hl2, Hv2, Hx1, Hl1, Hv1. split_and!.
  - by intros -> ->.
  - intros -> ->. simpl. by destruct (truthy type2).
  - destruct (truthy type2 && negb (SpanTagValidator.type_span_rules_exist self));
      [done|].
    by destruct (truthy type1 && negb (SpanTagValidator.type_span_rules_exist self)).
Qed.

(** ** Fields of a rule that are not read *)

(** X12: the expected value of a rule is compared only when the rule is
    required and the value is truthy: the check of a rule that is not
    required, or whose value is [0], [""], [False] or [None], does the same
    whatever the value is replaced with, as long as it stays falsy for a
    required rule. *)
Theorem expected_value_not_compared (rule : TagCheck.t) (value' : pyval)
  (span : pydict) (span_check_name : string) (s : check_state) :
  TagCheck.required rule = false
  ∨ (truthy (TagCheck.value rule) = false ∧ truthy value' = false) →
  TagCheck.check rule span span_check_name s
  = TagCheck.check
      {| TagCheck.name := TagCheck.name rule;
         TagCheck.val_type := TagCheck.val_type rule;
         TagCheck.required := TagCheck.required rule;
         TagCheck.value := value' |}
      span span_check_name s.
Proof.
  destruct rule as [name val_type required value]. simpl.
  unfold TagCheck.check. simpl.
  intros [->|[-> ->]]; [done|]. by rewrite !andb_false_r.
Qed.

(** X13: a rule with a truthy expected value that is required is never
    type-checked: its check does the same whatever type it declares, an
    unknown type name included. *)
Theorem declared_type_not_checked_with_expected_value (rule : TagCheck.t)
  (val_type' : option string) (span : pydict) (span_check_name : string)
  (s : check_state) :
  TagCheck.required rule = true →
  truthy (TagCheck.value rule) = true →
  TagCheck.check rule span span_check_name s
  = TagCheck.check
      {| TagCheck.name := TagCheck.name rule;
         TagCheck.val_type := val_type';
         TagCheck.required := TagCheck.required rule;
         TagCheck.value := TagCheck.value rule |}
      span span_check_name s.
Proof.
  destruct rule as [name val_type required value]. simpl.
  unfold TagCheck.check. simpl. by intros -> ->.
Qed.

(** ** The HTTP client span check *)

Lemma tag_is_present_in_dict (span meta : pydict) (tagname : string)
  (failures : list trace_message) :
  pd_get "meta" span = Some (Dict meta) →
  CheckHttpSpanStructure.tag_is_present tagname
    {| check_span := Some span; check_failures := failures |}
  = (Done tt,
     {| check_span := Some span;
        check_failures :=
          (failures ++ match pd_get tagname meta with
                       | Some _ => []
                       | None => [TAG_NOT_PRESENT tagname]
                       end)%list |}).
Proof.
  intros Hmeta.
  unfold CheckHttpSpanStructure.tag_is_present,
    CheckHttpSpanStructure.self_span_getitem, bind, get, getitem. simpl.
  rewrite Hmeta. simpl.
  destruct (pd_get tagname meta); simpl; [by rewrite app_nil_r|done].
Qed.

Lemma tag_matches_in_dict (span meta : pydict) (tagname expected : string)
  (actual : pyval) (failures : list trace_message) :
  pd_get "meta" span = Some (Dict meta) →
  pd_get tagname meta = Some actual →
  CheckHttpSpanStructure.tag_matches tagname expected
    {| check_span := Some span; check_failures := failures |}
  = (Done tt,
     {| check_span := Some span;
        check_failures :=
          (failures ++ if CheckHttpSpanStructure.eq_str actual expected then []
                       else [TAG_MISMATCH tagname actual expected])%list |}).
Proof.
  intros Hmeta Htag.
  unfold CheckHttpSpanStructure.tag_matches,
    CheckHttpSpanStructure.self_span_getitem, bind, get, getitem. simpl.
  rewrite Hmeta. simpl. unfold getitem. rewrite Htag. simpl.
  rewrite Hmeta. simpl. unfold getitem. rewrite Htag. simpl.
  destruct (CheckHttpSpanStructure.eq_str actual expected); simpl;
    [by rewrite app_nil_r|done].
Qed.

Lemma property_matches_in_span (span : pydict) (property_name expected : string)
  (actual : pyval) (failures : list trace_message) :
  pd_get property_name span = Some actual →
  CheckHttpSpanStructure.property_matches property_name expected
    {| check_span := Some span; check_failures := failures |}
  = (Done tt,
     {| check_span := Some span;
        check_failures :=
          (failures ++ if CheckHttpSpanStructure.eq_str actual expected then []
                       else [PROPERTY_MISMATCH property_name actual expected])%list |}).
Proof.
  intros Hprop.
  unfold CheckHttpSpanStructure.property_matches,
    CheckHttpSpanStructure.self_span_getitem, bind, get, getitem. simpl.
  rewrite Hprop. simpl. rewrite Hprop. simpl.
  destruct (CheckHttpSpanStructure.eq_str actual expected); simpl;
    [by rewrite app_nil_r|done].
Qed.

(** X14: on a span of type ["http"] whose [meta] has [span.kind] equal to
    ["client"], the check returns, unbinds the span, and records one failure
    for each of [http.method], [http.status_code] and [http.url] that [meta]
    lacks, in this order, and nothing else: the comparisons of [span.kind]
    and [type] that [SpanSpec.http_client] makes cannot fail there. *)
Theorem http_client_records_missing_tags_only (span meta : pydict)
  (self : trace_check) :
  pd_get "type" span = Some (Leaf (VStr "http")) →
  pd_get "meta" span = Some (Dict meta) →
  pd_get "span.kind" meta = Some (Leaf (VStr "client")) →
  CheckHttpSpanStructure.check_one span self
  = (Done tt,
     {| check_span := None;
        check_failures := (check_failures self ++ missing_http_tags meta)%list |}).
Proof.
  intros Htype Hmeta Hkind.
  unfold CheckHttpSpanStructure.check_one, CheckHttpSpanStructure.using_span.
  unfold bind at 1, set_check_span, modify at 1. simpl.
  unfold bind at 1, getitem at 1. rewrite Htype. simpl.
  unfold bind at 1, getitem at 1. rewrite Hmeta. simpl.
  unfold bind at 1, getitem at 1. rewrite Hkind. simpl.
  unfold CheckHttpSpanStructure.http_client.
  unfold bind at 1. rewrite (tag_is_present_in_dict span meta) by done.
  unfold bind at 1. rewrite (tag_is_present_in_dict span meta) by done.
  unfold bind at 1. rewrite (tag_is_present_in_dict span meta) by done.
  unfold bind at 1.
  rewrite (tag_matches_in_dict span meta _ _ (Leaf (VStr "client"))) by done.
  rewrite (property_matches_in_span span _ _ (Leaf (VStr "http"))) by done.
  simpl. unfold missing_http_tags. simpl. by rewrite !app_assoc, !app_nil_r.
Qed.

Lemma check_one_not_http (span : pydict) (type : pyval) (self : trace_check) :
  pd_get "type" span = Some type →
  CheckHttpSpanStructure.eq_str type "http" = false →
  CheckHttpSpanStructure.check_one span self
  = (Done tt, {| check_span := None; check_failures := check_failures self |}).
Proof.
  intros Htype Hne.
  unfold CheckHttpSpanStructure.check_one, CheckHttpSpanStructure.using_span.
  unfold bind at 1, set_check_span, modify at 1. simpl.
  unfold bind at 1, getitem at 1. rewrite Htype. simpl. by rewrite Hne.
Qed.

Lemma check_trace_not_http (trace : list pydict) :
  Forall (λ span, ∃ type, pd_get "type" span = Some type
                          ∧ CheckHttpSpanStructure.eq_str type "http" = false)
    trace →
  ∀ self : trace_check,
    ∃ self',
      for_each CheckHttpSpanStructure.check_one trace self = (Done tt, self')
      ∧ check_failures self' = check_failures self.
Proof.
  induction 1 as [|span trace (type & Htype & Hne) _ IH]; intros self; simpl.
  - by exists self.
  - unfold bind. rewrite (check_one_not_http span type) by done.
    destruct (IH {| check_span := None; check_failures := check_failures self |})
      as (self' & Hrun & Hfail).
    exists self'. by rewrite Hrun.
Qed.

(** X15: spans whose type is not ["http"] are not looked at any further:
    on traces that hold only such spans the check returns and records
    nothing, whatever their tags, also when they have no [meta] at all. *)
Theorem non_http_spans_are_not_checked (traces : list (list pydict))
  (self : trace_check) :
  Forall (Forall (λ span,
                    ∃ type, pd_get "type" span = Some type
                            ∧ CheckHttpSpanStructure.eq_str type "http" = false))
    traces →
  ∃ self',
    CheckHttpSpanStructure.check traces self = (Done tt, self')
    ∧ check_failures self' = check_failures self.
Proof.
  intros Hall. revert self. unfold CheckHttpSpanStructure.check.
  induction Hall as [|trace traces Htrace _ IH]; intros self; simpl.
  - by exists self.
  - unfold bind.
    destruct (check_trace_not_http trace Htrace self) as (self1 & -> & H1).
    destruct (IH self1) as (self' & Hrun & Hfail).
    exists self'. rewrite Hrun. split; [done|congruence].
Qed.

(** X16: a span without a [type] field makes the check raise [KeyError]:
    the span is unbound again, nothing is recorded for it, and the spans and
    traces after it are not checked. *)
Theorem span_without_type_ends_the_check (span : pydict)
  (rest : list pydict) (traces : list (list pydict)) (self : trace_check) :
  pd_get "type" span = None →
  CheckHttpSpanStructure.check ((span :: rest) :: traces) self
  = (Raised (KeyError "type"),
     {| check_span := None; check_failures := check_failures self |}).
Proof.
  intros Htype. unfold CheckHttpSpanStructure.check.
  apply for_each_raised. apply for_each_raised.
  unfold CheckHttpSpanStructure.check_one, CheckHttpSpanStructure.using_span.
  unfold bind at 1, set_check_span, modify at 1. simpl.
  unfold bind at 1, getitem at 1. by rewrite Htype.
Qed.

(** ** The header checks *)

Lemma failed_ne (msg : trace_message) (self : trace_check) :
  failed msg self ≠ self.
Proof.
  destruct self as [span failures]. unfold failed. simpl. intros [= Heq].
  apply (f_equal length) in Heq. rewrite length_app in Heq. simpl in Heq. lia.
Qed.

(** X17: whatever [int] makes of a header value, the content-length check
    passes, returning without a failure, exactly when the header
    [Content-Length] is there and is an integer of at most 50000000, a
    negative one included; a value that is not an integer is not recorded as
    a failure, the [ValueError] of [int] leaves the check. *)
Theorem content_length_bound (py_int : string → option Z)
  (headers : gmap string string) (self : trace_check) :
  (CheckTraceContentLength_check py_int headers self = Returns self
   ↔ ∃ value content_length,
       headers !! "Content-Length" = Some value
       ∧ py_int value = Some content_length
       ∧ (content_length ≤ 50000000)%Z)
  ∧ (CheckTraceContentLength_check py_int headers self = RaisesValueError self
     ↔ ∃ value,
         headers !! "Content-Length" = Some value ∧ py_int value = None).
Proof.
  unfold CheckTraceContentLength_check.
  destruct (headers !! "Content-Length") as [value|].
  - destruct (py_int value) as [n|] eqn:Hint.
    + destruct (Z.ltb_spec 50000000 n) as [Hlt|Hle]; split; split.
      * intros [= Hf]. by apply failed_ne in Hf.
      * intros (v & m & [= <-] & Hm & Hle). rewrite Hint in Hm.
        injection Hm as <-. lia.
      * done.
      * intros (v & [= <-] & Hv). congruence.
      * intros _. by exists value, n.
      * done.
      * done.
      * intros (v & [= <-] & Hv). congruence.
    + split; split; try done.
      * intros (v & m & [= <-] & Hm & _). congruence.
      * intros _. by exists value.
  - split; split.
    + intros [= Hf]. by apply failed_ne in Hf.
    + by intros (v & m & ? & _).
    + done.
    + by intros (v & ? & _).
Qed.

(** X18: the trace-count check never lets the [ValueError] of [int] out:
    it always returns, and it returns without a failure exactly when the
    header [X-Datadog-Trace-Count] is there and is the number of traces; a
    value that is not an integer is one recorded failure. *)
Theorem trace_count_header_checked (py_int : string → option Z)
  (headers : gmap string string) (num_traces : Z) (self : trace_check) :
  (∃ self', CheckTraceCountHeader_check py_int headers num_traces self
            = Returns self')
  ∧ (CheckTraceCountHeader_check py_int headers num_traces self = Returns self
     ↔ ∃ value,
         headers !! "X-Datadog-Trace-Count" = Some value
         ∧ py_int value = Some num_traces)
  ∧ (∀ value,
       headers !! "X-Datadog-Trace-Count" = Some value →
       py_int value = None →
       CheckTraceCountHeader_check py_int headers num_traces self
       = Returns (failed TRACE_COUNT_NOT_INTEGER self)).
Proof.
  unfold CheckTraceCountHeader_check.
  destruct (headers !! "X-Datadog-Trace-Count") as [value|].
  - destruct (py_int value) as [count|] eqn:Hint.
    + destruct (Z.eqb_spec num_traces count) as [->|Hne]; simpl.
      * split; [by eauto|]. split.
        -- split; [by eauto|done].
        -- intros v [= <-] Hv. congruence.
      * split; [by eauto|]. split.
        -- split.
           ++ intros [= Hf]. by apply failed_ne in Hf.
           ++ intros (v & [= <-] & Hc). congruence.
        -- intros v [= <-] Hv. congruence.
    + split; [by eauto|]. split.
      * split.
        -- intros [= Hf]. by apply failed_ne in Hf.
        -- intros (v & [= <-] & Hv). congruence.
      * done.
  - split; [by eauto|]. split.
    + split.
      * intros [= Hf]. by apply failed_ne in Hf.
      * by intros (v & ? & _).
    + done.
Qed.

(** ** The match pass and files that hold one document *)

Lemma match_tags_done (rules : SpanTagRules) (self : SpanTagValidator.t)
  (comparisons : list (string * pyval)) :
  NoDup comparisons.*1 →
  ∀ tags : gmap string leaf,
    comparisons_hold tags comparisons →
    for_each (SpanTagValidator.match_tag rules) comparisons
      (SpanTagValidator.set_tags tags self)
    = (Done tt,
       SpanTagValidator.set_tags (remove_tags tags comparisons.*1) self).
Proof.
  induction comparisons as [|[e_k e_v] comparisons IH]; intros Hnodup tags Hall;
    simpl; [done|].
  apply NoDup_cons in Hnodup as [Hk Hnodup].
  apply Forall_cons in Hall as [(v & Hv & Heq) Hall]. simpl in *.
  unfold bind at 1, SpanTagValidator.match_tag, bind, get. simpl.
  rewrite Hv, Heq. simpl. apply (IH Hnodup).
  apply Forall_forall. intros [k e] Hin.
  rewrite Forall_forall in Hall. destruct (Hall _ Hin) as (v' & Hv' & Heq').
  exists v'. split; [|done]. simpl in *. rewrite lookup_delete_ne; [done|].
  intros ->. apply Hk. apply list_elem_of_fmap. by exists (k, e).
Qed.

(** X19: when the comparisons of a layer name distinct tags and each tag is
    in the working set with a value equal to the expected one, the match
    pass returns and has deleted exactly the compared tags, [component]
    among them whether or not the validator keeps it in the required
    pass. *)
Theorem match_pass_succeeds (rules : SpanTagRules) (self : SpanTagValidator.t) :
  NoDup (_tag_comparisons rules).*1 →
  comparisons_hold (SpanTagValidator._tags self) (_tag_comparisons rules) →
  SpanTagValidator.span_matching_tag_validator rules self
  = (Done tt,
     SpanTagValidator.set_tags
       (remove_tags (SpanTagValidator._tags self) (_tag_comparisons rules).*1)
       self).
Proof.
  intros Hnodup Hall.
  unfold SpanTagValidator.span_matching_tag_validator.
  destruct (_tag_comparisons rules) as [|e comparisons] eqn:Hcmp.
  - simpl. by rewrite set_tags_same.
  - rewrite <- (set_tags_same self) at 1. by apply match_tags_done.
Qed.

(** X20: an integration file that holds one document instead of a list is
    indexed without any entry, so for every span of its component, whatever
    string its name is, [find_span_tag_check] raises [KeyError] on the
    wildcard key: the document is never loaded. *)
Theorem single_document_file_is_never_found
  (fs : filesystem) (files : list (string * file_data)) (LANGUAGE : string)
  (span : pydict) (component span_name : string) (d : spec_doc) :
  integration_dir fs = Some files →
  (component +:+ "-spec.json", JObject d) ∈ files →
  (∀ f data, (f, data) ∈ files →
             SpanTagChecksLoader.strip_suffix f = component → data = JObject d) →
  component ≠ "" →
  SpanTagChecksLoader.span_component span = Done (Leaf (VStr component)) →
  pd_get "name" span = Some (Leaf (VStr span_name)) →
  ∃ loader,
    SpanTagChecksLoader.__init__ fs = Done loader
    ∧ SpanTagChecksLoader.find_span_tag_check loader fs LANGUAGE span
      = Raised (KeyError (component +:+ ".*")).
Proof.
  intros Hdir Hin Hsame Hne Hc Hname.
  eexists. unfold SpanTagChecksLoader.__init__. rewrite Hdir.
  split; [done|].
  unfold SpanTagChecksLoader.find_span_tag_check,
    SpanTagChecksLoader.find_integration.
  rewrite Hc. apply String.eqb_neq in Hne. rewrite Hne. simpl.
  rewrite (index_files_lookup component (JObject d) files Hsame).
  - rewrite Hname. simpl. by rewrite !lookup_empty.
  - left. eexists. split; [done|]. apply strip_suffix_spec_json.
Qed.

(** ** The further properties at concrete runs *)

Lemma required_pass_succeeds_witness :
  SpanTagValidator.span_required_tag_validator redis_root_rules redis_state
  = (Done tt,
     SpanTagValidator.set_tags
       (remove_tags (SpanTagValidator._tags redis_state)
          (deleted_by_required redis_state (_required_tags redis_root_rules)))
       redis_state).
Proof.
  apply (required_pass_succeeds redis_root_rules redis_state).
  - apply (bool_decide_unpack _). vm_compute. exact I.
  - intros tag Hin. simpl in Hin.
    repeat (apply elem_of_cons in Hin as [->|Hin]);
      [vm_compute; by eexists..|by apply elem_of_nil in Hin].
Defined.

Lemma required_pass_raises_at_first_missing_witness :
  let left := remove_tags (SpanTagValidator._tags redis_state)
                (deleted_by_required redis_state ["language"]) in
  SpanTagValidator.span_required_tag_validator twice_required_rules redis_state
  = (Raised (AssertionError
               (TAG_MISSING_ASSERTION (Leaf (VStr "redis.command"))
                  (rules_name twice_required_rules) "language" (dom left))),
     SpanTagValidator.set_tags left redis_state).
Proof.
  apply (required_pass_raises_at_first_missing twice_required_rules redis_state
           ["language"] [] "language" (Leaf (VStr "redis.command"))).
  - reflexivity.
  - apply (bool_decide_unpack _). vm_compute. exact I.
  - intros tag Hin.
    repeat (apply elem_of_cons in Hin as [->|Hin]);
      [vm_compute; by eexists|by apply elem_of_nil in Hin].
  - vm_compute. reflexivity.
  - reflexivity.
Defined.

Lemma loader_finds_document_by_name_witness :
  ∃ loader d,
    SpanTagChecksLoader.__init__ redis_fs = Done loader
    ∧ [redis_command_doc; redis_default_doc] !! 0 = Some d
    ∧ doc_name d = "redis.command"
    ∧ match SpanTagChecksLoader.find_span_tag_check loader redis_fs "default"
              redis_command_span with
      | Done found =>
          SpanTagChecksLoader.integration_span_check found
          = Some (SpanTagChecksLoader.make_checks d)
      | Raised e =>
          ∃ span_type,
            doc_type d = Some span_type ∧ span_type ∈ TESTED_SPAN_TYPES ∧
            SpanTagChecksLoader.load_type_check redis_fs "default" span_type
            = Raised e
      end.
Proof.
  apply (loader_finds_document_by_name redis_fs redis_files "default"
           redis_command_span "redis" "redis.command"
           [redis_command_doc; redis_default_doc] 0).
  - reflexivity.
  - apply (bool_decide_unpack _). vm_compute. exact I.
  - apply list_elem_of_here.
  - intros f d Hin _. unfold redis_files in Hin.
    apply elem_of_cons in Hin as [[= _ ->]|Hin]; [done|].
    by apply elem_of_nil in Hin.
  - discriminate.
  - reflexivity.
  - reflexivity.
  - vm_compute. reflexivity.
Defined.

Lemma type_check_is_http_specification_witness :
  ∃ doc,
    ddtrace_file http_fs (Leaf (VStr "default")) "http-spec.json"
    = Some (JObject doc)
    ∧ SpanTagChecksLoader.make_checks http_doc
      = SpanTagChecksLoader.make_checks doc.
Proof.
  apply (type_check_is_http_specification base_loader http_fs "default"
           http_request_span
           {| SpanTagChecksLoader.integration_span_check := None;
              SpanTagChecksLoader.type_span_check :=
                Some (SpanTagChecksLoader.make_checks http_doc) |}
           (SpanTagChecksLoader.make_checks http_doc)).
  - vm_compute. reflexivity.
  - reflexivity.
Defined.

Lemma success_iff_every_tag_named_witness :
  ∃ o s',
    SpanTagValidationCheck.check chunk_root_check (start_state ∅ chunk_root_check)
    = (Done o, s')
    ∧ (∀ key : string,
         _tags s' !! key
         = if decide (key ∈ plan_tag_names
                              (SpanTagValidationCheck.span_tags_checks
                                 chunk_root_check))
           then None
           else SpanTagValidationCheck.extracted_tags chunk_root_check !! key)
    ∧ (o = SpanTagValidationCheck.validation_success
       ↔ ∀ key : string,
           is_Some (SpanTagValidationCheck.extracted_tags chunk_root_check !! key) →
           key ∈ plan_tag_names
                   (SpanTagValidationCheck.span_tags_checks chunk_root_check)).
Proof.
  apply (success_iff_every_tag_named chunk_root_check
           (Leaf (VStr "web.request")) ∅).
  - reflexivity.
  - discriminate.
  - repeat constructor.
Defined.

Lemma validator_keeps_state_between_runs_witness :
  let after1 := (SpanTagValidator.validate redis_general_rules
                   redis_failed_span redis_validator).2 in
  let after2 := (SpanTagValidator.validate redis_general_rules
                   untyped_failed_span after1).2 in
  SpanTagValidator.span_tag_rules_list after2
  = list_insert_at 1 (ERROR_SPAN_RULES redis_general_rules)
      (list_insert_at 1 (ERROR_SPAN_RULES redis_general_rules)
         (SpanTagValidator.span_tag_rules_list redis_validator))
  ∧ SpanTagValidator.validate_all_tags after2 = false
  ∧ SpanTagValidator.validate_all_tags redis_validator = true.
Proof.
  destruct (validator_keeps_state_between_runs redis_general_rules
              redis_failed_span untyped_failed_span
              (Leaf (VInt 1)) (Leaf (VStr "redis")) (Leaf (VInt 1)) (Leaf VNone)
              redis_validator eq_refl eq_refl eq_refl eq_refl)
    as (Hplan & Hcleared & _).
  destruct (validator_keeps_state_between_runs redis_general_rules
              redis_command_span redis_command_span
              (Leaf (VInt 0)) (Leaf VNone) (Leaf (VInt 0)) (Leaf VNone)
              redis_validator eq_refl eq_refl eq_refl eq_refl)
    as (_ & _ & Hkept).
  split_and!.
  - apply Hplan; reflexivity.
  - apply Hcleared; reflexivity.
  - apply Hkept. vm_compute. reflexivity.
Defined.

Lemma expected_value_not_compared_witness :
  TagCheck.check
    {| TagCheck.name := "span.kind"; TagCheck.val_type := None;
       TagCheck.required := false; TagCheck.value := Leaf (VStr "client") |}
    server_span "http" server_state
  = TagCheck.check
      {| TagCheck.name := "span.kind"; TagCheck.val_type := None;
         TagCheck.required := false; TagCheck.value := Leaf (VStr "producer") |}
      server_span "http" server_state.
Proof.
  apply (expected_value_not_compared
           {| TagCheck.name := "span.kind"; TagCheck.val_type := None;
              TagCheck.required := false;
              TagCheck.value := Leaf (VStr "client") |}
           (Leaf (VStr "producer")) server_span "http" server_state).
  left. reflexivity.
Defined.

Lemma declared_type_not_checked_with_expected_value_witness :
  TagCheck.check kind_rule server_span "http" server_state
  = TagCheck.check
      {| TagCheck.name := TagCheck.name kind_rule;
         TagCheck.val_type := Some "integer";
         TagCheck.required := TagCheck.required kind_rule;
         TagCheck.value := TagCheck.value kind_rule |}
      server_span "http" server_state.
Proof.
  apply (declared_type_not_checked_with_expected_value kind_rule
           (Some "integer") server_span "http" server_state).
  - reflexivity.
  - reflexivity.
Defined.

Lemma http_client_records_missing_tags_only_witness :
  CheckHttpSpanStructure.check_one http_request_span no_failure
  = (Done tt,
     {| check_span := None;
        check_failures :=
          (check_failures no_failure ++ missing_http_tags http_request_meta)%list |}).
Proof.
  apply (http_client_records_missing_tags_only http_request_span
           http_request_meta no_failure).
  - reflexivity.
  - reflexivity.
  - reflexivity.
Defined.

Lemma non_http_spans_are_not_checked_witness :
  ∃ self',
    CheckHttpSpanStructure.check [[redis_command_span]] no_failure
    = (Done tt, self')
    ∧ check_failures self' = check_failures no_failure.
Proof.
  apply (non_http_spans_are_not_checked [[redis_command_span]] no_failure).
  repeat constructor. exists (Leaf VNone). split; reflexivity.
Defined.

Lemma span_without_type_ends_the_check_witness :
  CheckHttpSpanStructure.check ([server_span; http_request_span] :: []) no_failure
  = (Raised (KeyError "type"),
     {| check_span := None; check_failures := check_failures no_failure |}).
Proof.
  apply (span_without_type_ends_the_check server_span [http_request_span] []
           no_failure).
  reflexivity.
Defined.

Lemma match_pass_succeeds_witness :
  SpanTagValidator.span_matching_tag_validator redis_match_rules redis_state
  = (Done tt,
     SpanTagValidator.set_tags
       (remove_tags (SpanTagValidator._tags redis_state)
          (_tag_comparisons redis_match_rules).*1)
       redis_state).
Proof.
  apply (match_pass_succeeds redis_match_rules redis_state).
  - apply (bool_decide_unpack _). vm_compute. exact I.
  - repeat constructor.
    + exists (VStr "redis"). split; vm_compute; reflexivity.
    + exists (VStr "python"). split; vm_compute; reflexivity.
Defined.

Lemma single_document_file_is_never_found_witness :
  ∃ loader,
    SpanTagChecksLoader.__init__ redis_object_fs = Done loader
    ∧ SpanTagChecksLoader.find_span_tag_check loader redis_object_fs "default"
        redis_command_span
      = Raised (KeyError ("redis" +:+ ".*")).
Proof.
  apply (single_document_file_is_never_found redis_object_fs redis_object_files
           "default" redis_command_span "redis" "redis.command"
           redis_default_doc).
  - reflexivity.
  - apply list_elem_of_here.
  - intros f data Hin _. unfold redis_object_files in Hin.
    apply elem_of_cons in Hin as [[= _ ->]|Hin]; [done|].
    by apply elem_of_nil in Hin.
  - discriminate.
  - reflexivity.
  - reflexivity.
Defined.
